(** * movies-list-app: the store and its state change pipeline (src/app.js)

    A shallow embedding of [createStore] (the two dispatch channels and the
    subscriber list), of the reducers and of the search effect, with the
    properties of the specification stated over them. *)

From stdpp Require Import gmap strings list fin_maps pretty.

Local Open Scope string_scope.

(** ** JavaScript values, as far as the program handles them *)

(** A JavaScript number. The program never calculates with numbers; it
    copies them and compares one with an array index by [===]. A double
    that is an integer is kept as that integer ([-0] and [0], which [===]
    identifies, are both [Int 0]); any other double (7.5, NaN, Infinity) is
    kept by its decimal text. *)
Inductive Number : Type :=
| Int (z : Z)
| NotInt (text : string).

(** Primitive values. *)
Inductive Val : Type :=
| Undefined
| Null
| Bool (b : bool)
| Num (n : Number)
| Str (s : string).

(** An object whose properties hold primitives: a movie of the response
    body, an item of the list shown. *)
Abbreviation Obj := (gmap string Val).

(** What a property of the state or of an action holds: a primitive, or an
    array of objects (the items). *)
Inductive JsValue : Type :=
| Prim (v : Val)
| Arr (l : list Obj).

(** The state and the payload of an action are objects of such values. *)
Abbreviation JsObject := (gmap string JsValue).
Abbreviation State := (gmap string JsValue).

(** The property read [o.k] (or [o[k]]): [undefined] when [o] has no
    property [k]. *)
Definition get (o : JsObject) (k : string) : JsValue :=
  default (Prim Undefined) (o !! k).

Definition get_val (o : Obj) (k : string) : Val :=
  default Undefined (o !! k).

(** [ToBoolean]: what [if], [!], [&&] and [||] test. An array is an
    object, hence true, also when it is empty. *)
Definition truthy_val (v : Val) : bool :=
  match v with
  | Undefined | Null => false
  | Bool b => b
  | Num (Int z) => negb (z =? 0)%Z
  | Num (NotInt t) => negb (String.eqb t "NaN")
  | Str s => negb (String.eqb s "")
  end.

Definition truthy (v : JsValue) : bool :=
  match v with
  | Prim p => truthy_val p
  | Arr _ => true
  end.

(** [ToString], as a template literal applies it. An integer prints in
    decimal (the exponent form of integers from 1e21 on is not modelled). *)
Definition ToString_val (v : Val) : string :=
  match v with
  | Undefined => "undefined"
  | Null => "null"
  | Bool true => "true"
  | Bool false => "false"
  | Num (Int z) => pretty z
  | Num (NotInt t) => t
  | Str s => s
  end.

Definition ToString (v : JsValue) : string :=
  match v with
  | Prim p => ToString_val p
  | Arr l => String.concat "," (map (fun _ : Obj => "[object Object]") l)
  end.

(** [Object.assign(target, ...sources)]: the properties of each source are
    copied onto the target, a later source overriding an earlier one. *)
Definition Object_assign {V : Type} (target : gmap string V)
    (sources : list (gmap string V)) : gmap string V :=
  fold_left (fun acc source => source ∪ acc) sources target.

(** A value that was thrown, or the reason a promise was rejected with: a
    primitive ([Promise.reject(response.statusText)] rejects with a string)
    or an [Error] object with its [name] and [message]. *)
Inductive Thrown : Type :=
| ThrownVal (v : Val)
| ThrownError (name message : string).

(** [Error.prototype.toString]. *)
Definition Error_toString (name message : string) : string :=
  if String.eqb name "" then message
  else if String.eqb message "" then name
  else name ++ ": " ++ message.

(** [`${error}`] *)
Definition template (error : Thrown) : string :=
  match error with
  | ThrownVal v => ToString_val v
  | ThrownError name message => Error_toString name message
  end.

(** How a call ends: it returns a value or it throws. *)
Inductive Completion (A : Type) : Type :=
| Normal (a : A)
| Abrupt (e : Thrown).
Arguments Normal {A} a.
Arguments Abrupt {A} e.

(** ** Actions *)

(** An action: its [type], which alone routes it, and the other
    properties, which the store does not look at. *)
Record Action : Type := mkAction {
  type : string;
  payload : JsObject
}.

(** ** The store *)

(** The object [{ dispatch, dispatchEffect }] that [createStore] hands to
    every reducer, effect and subscriber. There is one store, so there is
    one such pair of closures. *)
Inductive Dispatchers : Type :=
| dispatchers.

(** A reducer: [(state, action, { dispatch, dispatchEffect }) => newState].
    It computes the next state and touches nothing else; it may throw. *)
Abbreviation Reducer :=
  (State -> Action -> Dispatchers -> Completion State).

(** What a callback (a subscriber, an effect, a promise handler) does with
    the store while it runs: the calls it makes, in order, and how it ends.
    A callback that returns the moment it is called is [Done]. *)
Inductive Script : Type :=
| Done
| Throw (e : Thrown)
| CallDispatch (action : Action) (next : Script)
| CallDispatchEffect (action : Action) (next : Script)
| CallSubscribe (name : string) (body : State -> Dispatchers -> Script)
    (next : Script)
| CallFetch (url : string) (next : Script)
| Catch (body : Script) (handler : Thrown -> Script).

(** A subscriber: [(state, { dispatch, dispatchEffect }) => void]. The
    name tells registrations apart in the record of calls. *)
Record Subscriber : Type := mkSubscriber {
  sub_name : string;
  sub_body : State -> Dispatchers -> Script
}.

(** An effect: [(state, action, { dispatch, dispatchEffect }) => void]. The
    script is what it does before it returns; what it does when a promise
    settles runs later, as a script of its own. *)
Abbreviation Effect :=
  (State -> Action -> Dispatchers -> Script).

(** What can be seen of the store from outside: the calls of subscribers
    and effects with their arguments, and the requests sent. *)
Inductive Event : Type :=
| SubscriberCalled (name : string) (state : State) (d : Dispatchers)
| EffectCalled (type : string) (state : State) (action : Action)
    (d : Dispatchers)
| FetchCalled (url : string).

(** The variables [createStore] closes over, [state] and [subscribers],
    and the record of the calls made so far. *)
Record Store : Type := mkStore {
  state : State;
  subscribers : list Subscriber;
  calls : list Event
}.

Definition set_state (newState : State) (store : Store) : Store :=
  {| state := newState;
     subscribers := subscribers store;
     calls := calls store |}.

Definition record (e : Event) (store : Store) : Store :=
  {| state := state store;
     subscribers := subscribers store;
     calls := calls store ++ [e] |}.

(** How a call into the store ends. [Exhausted] is a call that nests deeper
    than the depth allowed. *)
Inductive Outcome : Type :=
| Returned (store : Store)
| Threw (e : Thrown) (store : Store)
| Exhausted.

Definition and_then (o : Outcome) (next : Store -> Outcome) : Outcome :=
  match o with
  | Returned store => next store
  | Threw e store => Threw e store
  | Exhausted => Exhausted
  end.

(** [o] is [o'], or the depth ran out before [o'] was reached. *)
Definition within (o o' : Outcome) : Prop :=
  o = Exhausted \/ o = o'.

(** [array.forEach(callback)]: the elements present when [forEach] is
    called, in order; a callback that throws ends the loop. *)
Fixpoint forEach {A : Type} (array : list A) (callback : A -> Store -> Outcome)
    (store : Store) : Outcome :=
  match array with
  | [] => Returned store
  | x :: rest => and_then (callback x store) (forEach rest callback)
  end.

(** [createStore(reducers, effects, initialState)]: the two tables are
    only read, by [dispatch] and [dispatchEffect], which take them as
    arguments below. *)
Definition createStore (initialState : State) : Store :=
  {| state := initialState; subscribers := []; calls := [] |}.

Definition getState (store : Store) : State := state store.

Definition subscribe (subscriber : Subscriber) (store : Store) : Store :=
  {| state := state store;
     subscribers := subscribers store ++ [subscriber];
     calls := calls store |}.

(** A subscriber that returns the moment it is called with [st]. *)
Definition passive_at (st : State) (subscriber : Subscriber) : Prop :=
  sub_body subscriber st dispatchers = Done.

(** The call of a subscriber with [st]. *)
Definition called_with (st : State) (subscriber : Subscriber) : Event :=
  SubscriberCalled (sub_name subscriber) st dispatchers.

Section Store.

(** The arguments [reducers] and [effects] of [createStore]. [reducers !!
    type] is what [reducers[type]] reads when that is a function, and
    [None] when the test [!reducers[type]] succeeds. *)
Variable reducers : gmap string Reducer.
Variable effects : gmap string Effect.

Section Calls.

(** How the store runs the body of a callback it calls. *)
Variable run : Script -> Store -> Outcome.

(** [subscriber => subscriber(state, { dispatch, dispatchEffect })]:
    [state] is the variable, read when the subscriber is called. *)
Definition notify (subscriber : Subscriber) (store : Store) : Outcome :=
  run (sub_body subscriber (state store) dispatchers)
      (record (SubscriberCalled (sub_name subscriber) (state store)
                 dispatchers) store).

Definition dispatch_with (action : Action) (store : Store) : Outcome :=
  let type := type action in
  match reducers !! type with
  | None => Returned store
  | Some reducer =>
      match reducer (state store) action dispatchers with
      | Abrupt e => Threw e store
      | Normal newState =>
          let store := set_state newState store in
          forEach (subscribers store) notify store
      end
  end.

Definition dispatchEffect_with (action : Action) (store : Store)
    : Outcome :=
  let type := type action in
  match effects !! type with
  | None => Returned store
  | Some effect =>
      run (effect (state store) action dispatchers)
          (record (EffectCalled type (state store) action dispatchers)
             store)
  end.

End Calls.

(** Running a script, to a depth of at most [fuel] nested calls. *)
Fixpoint exec (fuel : nat) (s : Script) (store : Store) : Outcome :=
  match fuel with
  | O => Exhausted
  | S fuel =>
      match s with
      | Done => Returned store
      | Throw e => Threw e store
      | CallDispatch action next =>
          and_then (dispatch_with (exec fuel) action store) (exec fuel next)
      | CallDispatchEffect action next =>
          and_then (dispatchEffect_with (exec fuel) action store)
            (exec fuel next)
      | CallSubscribe name body next =>
          exec fuel next (subscribe (mkSubscriber name body) store)
      | CallFetch url next =>
          exec fuel next (record (FetchCalled url) store)
      | Catch body handler =>
          match exec fuel body store with
          | Threw e store => exec fuel (handler e) store
          | o => o
          end
      end
  end.

Definition dispatch (fuel : nat) : Action -> Store -> Outcome :=
  dispatch_with (exec fuel).

Definition dispatchEffect (fuel : nat) : Action -> Store -> Outcome :=
  dispatchEffect_with (exec fuel).

(** What the claim on notification says of one call of [dispatch]: it
    returns, and the calls it made are one per registration, in
    registration order, each with the result of the reducer. *)
Definition notifies_each_with (newState : State) (fuel : nat)
    (action : Action) (store : Store) : Prop :=
  exists after,
    dispatch fuel action store = Returned after
    /\ calls after
       = (calls store ++ map (called_with newState) (subscribers store))%list.

End Store.

(** ** Helpers *)

Definition buildMovieObject (movie : Obj) : Obj :=
  {[ "title" := get_val movie "title";
     "thumbnail" :=
       Str ("https://image.tmdb.org/t/p/w92/"
              ++ ToString_val (get_val movie "poster_path"));
     "rating" := get_val movie "vote_average";
     "description" := get_val movie "overview";
     "showDescription" := Bool false ]}.

(** ** The state change pipeline *)

Definition FETCH_MOVIES_REQUEST : string := "FETCH_MOVIES_REQUEST".
Definition FETCH_MOVIES_SUCCESS : string := "FETCH_MOVIES_SUCCESS".
Definition FETCH_MOVIES_FAILURE : string := "FETCH_MOVIES_FAILURE".
Definition SHOW_MOVIE_DESCRIPTION : string := "SHOW_MOVIES_DESCRIPTION".

Definition fetchMoviesRequest (state : State) : State :=
  Object_assign ∅
    [ state;
      {[ "isFetchingItems" := Prim (Bool true);
         "error" := Prim Undefined ]} ].

Definition fetchMoviesSuccess (state : State) (action : Action) : State :=
  Object_assign ∅
    [ state;
      {[ "items" := get (payload action) "data";
         "isFetchingItems" := Prim (Bool false) ]} ].

Definition fetchMoviesFailure (state : State) (action : Action) : State :=
  Object_assign ∅
    [ state;
      {[ "items" := Prim Undefined;
         "isFetchingItems" := Prim (Bool false);
         "error" := get (payload action) "error" ]} ].

(** [v.length], for a [v] that is neither [undefined] nor [null]: arrays
    and strings have one, the other primitives read [undefined]. Of the
    length of a string the program uses only whether it is 0. *)
Definition length_of (v : JsValue) : Val :=
  match v with
  | Arr l => Num (Int (Z.of_nat (length l)))
  | Prim (Str s) => Num (Int (Z.of_nat (String.length s)))
  | Prim _ => Undefined
  end.

(** [n > 0], for [n] a length: a number or [undefined]. *)
Definition greater_than_0 (n : Val) : bool :=
  match n with
  | Num (Int z) => (0 <? z)%Z
  | _ => false
  end.

(** [index === v], for the index [map] passes to its callback. *)
Definition index_strict_equals (index : nat) (v : JsValue) : bool :=
  match v with
  | Prim (Num (Int z)) => (Z.of_nat index =? z)%Z
  | _ => false
  end.

Definition showMovieDescription (state : State) (action : Action)
    : Completion State :=
  let state_items := get state "items" in
  if truthy state_items
     && truthy_val (length_of state_items)
     && greater_than_0 (length_of state_items)
  then
    match state_items with
    | Arr l =>
        let items :=
          imap (fun index item =>
                  if index_strict_equals index (get (payload action) "index")
                  then Object_assign ∅
                         [ item; {[ "showDescription" := Bool true ]} ]
                  else Object_assign ∅
                         [ item; {[ "showDescription" := Bool false ]} ]) l in
        Normal (Object_assign ∅ [ state; {[ "items" := Arr items ]} ])
    | Prim _ =>
        (* a string has a positive length and no [map] *)
        Abrupt (ThrownError "TypeError" "state.items.map is not a function")
    end
  else
    Normal (Object_assign ∅ [ state; {[ "items" := Prim Undefined ]} ]).

(** The callback [showMovieDescription] passes to [map], by itself. *)
Definition flag_item (action : Action) (index : nat) (item : Obj) : Obj :=
  if index_strict_equals index (get (payload action) "index")
  then Object_assign ∅ [item; {[ "showDescription" := Bool true ]}]
  else Object_assign ∅ [item; {[ "showDescription" := Bool false ]}].

Definition reducers : gmap string Reducer :=
  {[ FETCH_MOVIES_REQUEST := (fun state _ _ => Normal (fetchMoviesRequest state));
     FETCH_MOVIES_SUCCESS :=
       (fun state action _ => Normal (fetchMoviesSuccess state action));
     FETCH_MOVIES_FAILURE :=
       (fun state action _ => Normal (fetchMoviesFailure state action));
     SHOW_MOVIE_DESCRIPTION :=
       (fun state action _ => showMovieDescription state action) ]}.

(** ** The search effect *)

(** A promise once settled. *)
Inductive Promise (A : Type) : Type :=
| Fulfilled (value : A)
| Rejected (reason : Thrown).
Arguments Fulfilled {A} value.
Arguments Rejected {A} reason.

(** [promise.then(onFulfilled)]: a rejection passes through. *)
Definition then_ {A B : Type} (promise : Promise A)
    (onFulfilled : A -> Promise B) : Promise B :=
  match promise with
  | Fulfilled value => onFulfilled value
  | Rejected reason => Rejected reason
  end.

(** The body of a response once parsed: its [results], [None] when the
    body has no array under that name. *)
Record Body : Type := mkBody {
  results : option (list Obj)
}.

(** What the effect reads of a response: [ok], [statusText] and what
    [json()] settles to. *)
Record Response : Type := mkResponse {
  ok : bool;
  statusText : string;
  json : Promise Body
}.

(** [a || b] on strings. *)
Definition or_string (a b : string) : string :=
  if truthy_val (Str a) then a else b.

Section Effects.

(** [apiKey] is declared outside app.js. *)
Variable apiKey : string.

(** The part of the effect that runs when it is called: without a query
    nothing happens, with one the request is sent. *)
Definition fetchMoviesRequestEffect (state : State) (action : Action)
    (d : Dispatchers) : Script :=
  if truthy (get (payload action) "query") then
    CallFetch
      ("https://api.themoviedb.org/3/search/movie?api_key=" ++ apiKey
         ++ "&language=en-UK&query=" ++ ToString (get (payload action) "query")
         ++ "&page=1&include_adult=false")
      Done
  else Done.

Definition effects : gmap string Effect :=
  {[ FETCH_MOVIES_REQUEST := fetchMoviesRequestEffect ]}.

End Effects.

(** The part of the effect that runs once [fetch] has settled: the three
    [then] handlers and the [catch] handler, [fetched] being what the
    promise of [fetch] settled to (rejected when the network failed). *)
Definition fetchMoviesRequestEffect_settled (fetched : Promise Response)
    : Script :=
  let checked :=
    then_ fetched (fun response =>
      if negb (ok response)
      then Rejected (ThrownVal (Str (statusText response)))
      else Fulfilled response) in
  let parsed := then_ checked (fun response => json response) in
  Catch
    (match parsed with
     | Rejected reason => Throw reason
     | Fulfilled response =>
         match results response with
         | None =>
             Throw (ThrownError "TypeError"
                      "Cannot read properties of undefined (reading 'map')")
         | Some movies =>
             CallDispatch
               {| type := FETCH_MOVIES_SUCCESS;
                  payload := {[ "data" := Arr (map buildMovieObject movies) ]} |}
               Done
         end
     end)
    (fun error =>
       CallDispatch
         {| type := FETCH_MOVIES_FAILURE;
            payload :=
              {[ "error" :=
                   Prim (Str (or_string (template error) "Unknown error")) ]} |}
         Done).

(** The failures of the search: the network failed and [fetch] rejected;
    the response came with a status outside 200..299; the response was ok
    and its body did not parse. [reason] is what the chain of promises is
    rejected with. *)
Inductive SearchFailure : Promise Response -> Thrown -> Prop :=
| NetworkFailure (reason : Thrown) :
    SearchFailure (Rejected reason) reason
| StatusFailure (response : Response) :
    ok response = false ->
    SearchFailure (Fulfilled response) (ThrownVal (Str (statusText response)))
| JsonFailure (response : Response) (reason : Thrown) :
    ok response = true ->
    json response = Rejected reason ->
    SearchFailure (Fulfilled response) reason.

(** The action the [catch] handler dispatches with the message [message]. *)
Definition failure (message : string) : Action :=
  {| type := FETCH_MOVIES_FAILURE;
     payload := {[ "error" := Prim (Str message) ]} |}.

(** ** Stores and actions to try the properties on *)

(** A subscriber that only looks at the state. *)
Definition observer (name : string) : Subscriber :=
  {| sub_name := name; sub_body := fun _ _ => Done |}.

(** A subscriber that gives a search up as soon as it sees one under way:
    it calls [dispatch] while [dispatch] is notifying. *)
Definition canceller : Subscriber :=
  {| sub_name := "canceller";
     sub_body := fun st _ =>
       if truthy (get st "isFetchingItems")
       then CallDispatch (failure "cancelled") Done
       else Done |}.

Definition request : Action :=
  {| type := FETCH_MOVIES_REQUEST; payload := ∅ |}.

Definition show (index : Z) : Action :=
  {| type := SHOW_MOVIE_DESCRIPTION;
     payload := {[ "index" := Prim (Num (Int index)) ]} |}.

Definition item (title : string) (shown : bool) : Obj :=
  {[ "title" := Str title;
     "thumbnail" := Str "https://image.tmdb.org/t/p/w92//poster.jpg";
     "rating" := Num (NotInt "7.5");
     "description" := Str "A film.";
     "showDescription" := Bool shown ]}.

Definition three_items : State :=
  {[ "items" := Arr [item "Alien" true; item "Brazil" false; item "Charade" false];
     "isFetchingItems" := Prim (Bool false) ]}.

Definition no_items : State :=
  {[ "items" := Arr []; "isFetchingItems" := Prim (Bool false) ]}.

Definition observed_store (initialState : State) : Store :=
  subscribe (observer "list") (subscribe (observer "list")
    (subscribe (observer "title") (createStore initialState))).

(** A store whose [items] is a string, which no array method reads. *)
Definition unlisted_store : Store :=
  observed_store {[ "items" := Prim (Str "abc") ]}.

Definition cancelling_store : Store :=
  subscribe (observer "list") (subscribe canceller (createStore ∅)).

(** ** The click handlers *)

(** The handler [renderApp] adds to the search button; [value] is what
    [document.getElementById('search__query').value] reads. *)
Definition search_click (value : string) : Script :=
  CallDispatch {| type := FETCH_MOVIES_REQUEST; payload := ∅ |}
    (CallDispatchEffect
       {| type := FETCH_MOVIES_REQUEST;
          payload := {[ "query" := Prim (Str value) ]} |}
       Done).

(** The handler [renderMoviesList] adds to the "Read more" button number
    [index]. *)
Definition read_more_click (index : nat) : Script :=
  CallDispatch
    {| type := SHOW_MOVIE_DESCRIPTION;
       payload := {[ "index" := Prim (Num (Int (Z.of_nat index))) ]} |}
    Done.

(** The action the third [then] handler dispatches for the [movies] of a
    response. *)
Definition success (movies : list Obj) : Action :=
  {| type := FETCH_MOVIES_SUCCESS;
     payload := {[ "data" := Arr (map buildMovieObject movies) ]} |}.

(** A subscriber that throws whenever it is called, as [renderMoviesList]
    does on a page without the element it writes to. *)
Definition faulty_view : Subscriber :=
  {| sub_name := "view";
     sub_body := fun _ _ =>
       Throw (ThrownError "TypeError" "Cannot set properties of null") |}.

Definition faulty_store : Store :=
  subscribe faulty_view (createStore ∅).

(** A response with two movies, the second without a poster. *)
Definition two_movies : list Obj :=
  [ {[ "title" := Str "Alien"; "poster_path" := Str "/alien.jpg";
       "vote_average" := Num (NotInt "8.1"); "overview" := Str "In space.";
       "id" := Num (Int 348) ]};
    {[ "title" := Str "Brazil"; "vote_average" := Num (Int 8);
       "overview" := Str "Paperwork." ]} ].

Definition ok_response (movies : list Obj) : Response :=
  {| ok := true; statusText := "OK";
     json := Fulfilled {| results := Some movies |} |}.

(** ** The view: the markup [renderMoviesList] writes *)

(** The character that opens and closes an attribute. *)
Definition dq : string :=
  String (Ascii.Ascii false true false false false true false false)
    EmptyString.

Definition loading_html : string :=
  "<p class=" ++ dq ++ "results__loading" ++ dq ++ ">Loading...</p>".

Definition results_head_html : string :=
  "
      <h1>Results</h1>
      <table>
        <thead>
          <th>Image</th>
          <th>Title</th>
          <th>Rating</th>
          <th></th>
        </thead>
        <tbody>
          ".

Definition results_tail_html : string :=
  "
        </tbody>
      </table>
    ".

(** The row of the description, for an item that shows it. *)
Definition description_html (item : Obj) : string :=
  "
              <tr>
                <td colspan=" ++ dq ++ "4" ++ dq ++ ">"
  ++ ToString_val (get_val item "description")
  ++ "</td>
              </tr>
            ".

(** The row of an item, up to where its description may follow. *)
Definition item_row_html (index : nat) (item : Obj) : string :=
  "
            <tr>
              <td>
                <img
                  src=" ++ dq
  ++ ToString_val (get_val item "thumbnail")
  ++ dq ++ "
                  alt=" ++ dq
  ++ ToString_val (get_val item "title")
  ++ dq ++ "
                  width=" ++ dq ++ "92" ++ dq ++ "
                  height=" ++ dq ++ "92" ++ dq ++ "
                />
              </td>
              <td>"
  ++ ToString_val (get_val item "title")
  ++ "</td>
              <td>"
  ++ ToString_val (get_val item "rating")
  ++ "</td>
              <td>
                <button class=" ++ dq ++ "results__read-more" ++ dq ++ " data-key=" ++ dq
  ++ pretty index
  ++ dq ++ ">Read more</button>
              </td>
            </tr>
            ".

Definition item_end_html : string :=
  "
          ".

(** The callback of [map] in the table. *)
Definition item_html (index : nat) (item : Obj) : string :=
  item_row_html index item
  ++ (if truthy_val (get_val item "showDescription")
      then description_html item else "")
  ++ item_end_html.

Definition error_html (error : JsValue) : string :=
  "
      <h1>There was an error</h1>
      <p>Details: "
  ++ ToString error
  ++ ".</p>
    ".

Definition no_results_html : string :=
  "
      <h1>There were no results</h1>
      <p>Please try another movie name.</p>
    ".

(** The value of [listHTML] when [renderMoviesList] writes it to the page.
    Writing it and adding the click handlers act on the document, which is
    not part of this development. *)
Definition renderMoviesList_listHTML (state : State) : Completion string :=
  if truthy (get state "isFetchingItems") then
    Normal loading_html
  else if truthy (get state "items")
          && truthy_val (length_of (get state "items"))
          && greater_than_0 (length_of (get state "items")) then
    match get state "items" with
    | Arr l =>
        Normal (results_head_html
                  ++ String.concat "" (imap item_html l)
                  ++ results_tail_html)
    | Prim _ =>
        Abrupt (ThrownError "TypeError" "state.items.map is not a function")
    end
  else if truthy (get state "error") then
    Normal (error_html (get state "error"))
  else if negb (truthy (get state "isFetchingItems")) then
    Normal no_results_html
  else
    Normal "".

(** A subscriber that, each time it is called, subscribes one more. *)
Definition registrar : Subscriber :=
  {| sub_name := "registrar";
     sub_body := fun _ _ => CallSubscribe "late" (fun _ _ => Done) Done |}.

Definition registering_store : Store :=
  subscribe (observer "list") (subscribe registrar
    (subscribe (observer "title") (createStore ∅))).

Definition half_faulty_store : Store :=
  subscribe (observer "list") (subscribe faulty_view
    (subscribe (observer "title") (createStore ∅))).

(** The store of the canceller once the request has been dispatched. *)
Definition cancelled_store : Store :=
  {| state := fetchMoviesFailure (fetchMoviesRequest ∅) (failure "cancelled");
     subscribers := subscribers cancelling_store;
     calls :=
       [ called_with (fetchMoviesRequest ∅) canceller;
         called_with
           (fetchMoviesFailure (fetchMoviesRequest ∅) (failure "cancelled"))
           canceller;
         called_with
           (fetchMoviesFailure (fetchMoviesRequest ∅) (failure "cancelled"))
           (observer "list");
         called_with
           (fetchMoviesFailure (fetchMoviesRequest ∅) (failure "cancelled"))
           (observer "list") ] |}.




(** A response that is ok and parses but holds no [results]. *)
Definition empty_body_response : Response :=
  {| ok := true; statusText := "OK"; json := Fulfilled {| results := None |} |}.

(** A movie of a response without a poster. *)
Definition unposted_movie : Obj :=
  {[ "title" := Str "Brazil"; "vote_average" := Num (Int 8);
     "overview" := Str "Paperwork." ]}.

(** What the faulty store is left as when the success is notified. *)
Definition faulty_store_filled : Store :=
  {| state := fetchMoviesSuccess ∅ (success two_movies);
     subscribers := subscribers faulty_store;
     calls :=
       [called_with (fetchMoviesSuccess ∅ (success two_movies)) faulty_view] |}.

(** ** What is left of a run *)

(** The store a call leaves behind, when it returned or threw. *)
Definition final (o : Outcome) : option Store :=
  match o with
  | Returned store => Some store
  | Threw _ store => Some store
  | Exhausted => None
  end.

(** The state an event shows to the callback called, if it shows one. *)
Definition shown (e : Event) : option State :=
  match e with
  | SubscriberCalled _ st _ => Some st
  | EffectCalled _ st _ _ => Some st
  | FetchCalled _ => None
  end.

(** * Properties *)

(** ** Objects *)

Lemma Object_assign_copy {V : Type} (source patch : gmap string V) :
  Object_assign ∅ [source; patch] = patch ∪ source.
Proof.
  unfold Object_assign. simpl. by rewrite (right_id_L ∅ (∪)).
Qed.

Lemma Object_assign_patched {V : Type} (source patch : gmap string V) k v :
  patch !! k = Some v ->
  Object_assign ∅ [source; patch] !! k = Some v.
Proof.
  intros Hk. rewrite Object_assign_copy. by apply lookup_union_Some_l.
Qed.

Lemma Object_assign_kept {V : Type} (source patch : gmap string V) k :
  patch !! k = None ->
  Object_assign ∅ [source; patch] !! k = source !! k.
Proof.
  intros Hk. rewrite Object_assign_copy. by apply lookup_union_r.
Qed.

Lemma get_Some (o : JsObject) k v : o !! k = Some v -> get o k = v.
Proof. unfold get. by intros ->. Qed.

(** ** The store *)

Section StoreProperties.

Variable reducers : gmap string Reducer.
Variable effects : gmap string Effect.

Lemma and_then_Returned (o : Outcome) : and_then o Returned = o.
Proof. by destruct o. Qed.

(** A reducer that returns: the state is replaced, then the subscribers
    registered at that moment are called in turn. *)
Lemma dispatch_commits fuel action store reducer newState :
  reducers !! type action = Some reducer ->
  reducer (state store) action dispatchers = Normal newState ->
  dispatch reducers effects fuel action store
  = forEach (subscribers store) (notify (exec reducers effects fuel))
      (set_state newState store).
Proof.
  intros Hreg Hred. unfold dispatch, dispatch_with. by rewrite Hreg, Hred.
Qed.

Lemma forEach_passive fuel (subs : list Subscriber) : forall store,
  Forall (passive_at (state store)) subs ->
  forEach subs (notify (exec reducers effects (S fuel))) store
  = Returned {| state := state store;
                subscribers := subscribers store;
                calls := calls store ++ map (called_with (state store)) subs |}.
Proof.
  induction subs as [|s subs IH]; intros store Hall; simpl.
  - rewrite app_nil_r. by destruct store.
  - inversion Hall as [|? ? Hs Hrest]; subst.
    unfold notify at 1. rewrite Hs. simpl.
    rewrite (IH (record _ store)) by exact Hrest. simpl.
    by rewrite <- app_assoc.
Qed.

(** *** The depth allowed does not change a result *)

Lemma and_then_within (o o' : Outcome) (next next' : Store -> Outcome) :
  within o o' ->
  (forall store, within (next store) (next' store)) ->
  within (and_then o next) (and_then o' next').
Proof.
  intros [->| ->] Hnext; [by left|].
  destruct o' as [store|e store|]; simpl; [apply Hnext|by right|by left].
Qed.

Lemma forEach_within {A : Type} (array : list A)
    (callback callback' : A -> Store -> Outcome) :
  (forall x store, within (callback x store) (callback' x store)) ->
  forall store,
    within (forEach array callback store) (forEach array callback' store).
Proof.
  intros Hcallback. induction array as [|x rest IH]; intros store; simpl.
  - by right.
  - apply and_then_within; [apply Hcallback|exact IH].
Qed.

Lemma dispatch_with_within (run run' : Script -> Store -> Outcome) :
  (forall s store, within (run s store) (run' s store)) ->
  forall action store,
    within (dispatch_with reducers run action store)
           (dispatch_with reducers run' action store).
Proof.
  intros Hrun action store. unfold dispatch_with.
  destruct (reducers !! type action) as [reducer|]; [|by right].
  destruct (reducer (state store) action dispatchers); [|by right].
  apply forEach_within. intros subscriber store'. apply Hrun.
Qed.

Lemma dispatchEffect_with_within (run run' : Script -> Store -> Outcome) :
  (forall s store, within (run s store) (run' s store)) ->
  forall action store,
    within (dispatchEffect_with effects run action store)
           (dispatchEffect_with effects run' action store).
Proof.
  intros Hrun action store. unfold dispatchEffect_with.
  destruct (effects !! type action) as [effect|]; [apply Hrun|by right].
Qed.

Lemma exec_step fuel : forall s store,
  within (exec reducers effects fuel s store)
         (exec reducers effects (S fuel) s store).
Proof.
  induction fuel as [|fuel IH]; intros s store; [by left|].
  destruct s as [|e|action next|action next|name body next|url next
                 |body handler].
  - by right.
  - by right.
  - apply and_then_within; [by apply dispatch_with_within|apply IH].
  - apply and_then_within; [by apply dispatchEffect_with_within|apply IH].
  - apply IH.
  - apply IH.
  - change (within
              match exec reducers effects fuel body store with
              | Threw e store' => exec reducers effects fuel (handler e) store'
              | o => o
              end
              match exec reducers effects (S fuel) body store with
              | Threw e store' =>
                  exec reducers effects (S fuel) (handler e) store'
              | o => o
              end).
    destruct (IH body store) as [->| ->]; [by left|].
    destruct (exec reducers effects (S fuel) body store);
      [by right|apply IH|by right].
Qed.

(** A script that ends within some depth ends the same way within any
    greater depth. *)
Lemma exec_deeper fuel fuel' s store o :
  exec reducers effects fuel s store = o ->
  o <> Exhausted ->
  fuel <= fuel' ->
  exec reducers effects fuel' s store = o.
Proof.
  intros Hrun Hends Hle. induction Hle as [|fuel' Hle IH]; [exact Hrun|].
  destruct (exec_step fuel' s store) as [Hout|Hsame]; congruence.
Qed.

Lemma dispatch_deeper fuel fuel' action store o :
  dispatch reducers effects fuel action store = o ->
  o <> Exhausted ->
  fuel <= fuel' ->
  dispatch reducers effects fuel' action store = o.
Proof.
  intros Hrun Hends Hle. induction Hle as [|fuel' Hle IH]; [exact Hrun|].
  destruct (dispatch_with_within _ _ (exec_step fuel') action store)
    as [Hout|Hsame]; unfold dispatch in *; congruence.
Qed.


(** C2. An action whose reducer throws: [dispatch] throws the same value
    to its caller, and the store is as it was before the call: the same
    state, and no call of a subscriber recorded. *)
Theorem reducer_fault_is_atomic fuel action store reducer e :
  reducers !! type action = Some reducer ->
  reducer (state store) action dispatchers = Abrupt e ->
  dispatch reducers effects fuel action store = Threw e store.
Proof.
  intros Hreducer Hthrows. unfold dispatch, dispatch_with.
  by rewrite Hreducer, Hthrows.
Qed.

(** C3, amended. An action whose reducer returns [newState], in a store
    whose subscribers return the moment they are called with [newState]:
    [dispatch] returns, the state is [newState], and the calls made are
    one per registration, in registration order, each with [newState] and
    the dispatchers. *)
Theorem dispatch_notifies_passive_subscribers fuel action store reducer
    newState :
  reducers !! type action = Some reducer ->
  reducer (state store) action dispatchers = Normal newState ->
  Forall (passive_at newState) (subscribers store) ->
  dispatch reducers effects (S fuel) action store
  = Returned
      {| state := newState;
         subscribers := subscribers store;
         calls := calls store ++ map (called_with newState) (subscribers store) |}
  /\ notifies_each_with reducers effects newState (S fuel) action store.
Proof.
  intros Hreducer Hreturns Hpassive.
  assert (dispatch reducers effects (S fuel) action store
          = Returned
              {| state := newState;
                 subscribers := subscribers store;
                 calls := calls store
                          ++ map (called_with newState) (subscribers store) |})
    as Hrun.
  { rewrite (dispatch_commits _ _ _ _ _ Hreducer Hreturns).
    by rewrite forEach_passive. }
  split; [exact Hrun|].
  eexists. split; [exact Hrun|reflexivity].
Qed.

End StoreProperties.


Lemma reducer_fault_is_atomic_witness :
  reducers !! type (show 1)
  = Some (fun state action _ => showMovieDescription state action)
  /\ showMovieDescription (state unlisted_store) (show 1)
     = Abrupt (ThrownError "TypeError" "state.items.map is not a function")
  /\ dispatch reducers (effects "key") 3 (show 1) unlisted_store
     = Threw (ThrownError "TypeError" "state.items.map is not a function")
         unlisted_store.
Proof.
  split; [reflexivity|]. split; [reflexivity|].
  apply (reducer_fault_is_atomic reducers (effects "key") 3 (show 1)
           unlisted_store
           (fun state action _ => showMovieDescription state action));
    reflexivity.
Defined.

Lemma dispatch_notifies_passive_subscribers_witness :
  reducers !! type request
  = Some (fun state _ _ => Normal (fetchMoviesRequest state))
  /\ Forall (passive_at (fetchMoviesRequest ∅)) (subscribers (observed_store ∅))
  /\ dispatch reducers (effects "key") 1 request (observed_store ∅)
     = Returned
         {| state := fetchMoviesRequest ∅;
            subscribers := subscribers (observed_store ∅);
            calls := [ called_with (fetchMoviesRequest ∅) (observer "title");
                       called_with (fetchMoviesRequest ∅) (observer "list");
                       called_with (fetchMoviesRequest ∅) (observer "list") ] |}.
Proof.
  assert (Forall (passive_at (fetchMoviesRequest ∅))
            (subscribers (observed_store ∅))) as Hpassive.
  { repeat constructor. }
  split; [reflexivity|]. split; [exact Hpassive|].
  apply (dispatch_notifies_passive_subscribers reducers (effects "key") 0
           request (observed_store ∅)
           (fun state _ _ => Normal (fetchMoviesRequest state))
           (fetchMoviesRequest ∅) eq_refl eq_refl Hpassive).
Defined.

(** With enough depth, what [dispatch] does in the store of the canceller:
    the canceller is called with the result of the reducer and dispatches
    the failure; inside that call both subscribers are called with the
    failed state; back in the outer loop the second subscriber is called
    with the state as it is then, the failed one. *)
Lemma dispatch_cancelling_store fuel :
  let requested := fetchMoviesRequest ∅ in
  let failed := fetchMoviesFailure requested (failure "cancelled") in
  dispatch reducers (effects "key") (2 + fuel) request cancelling_store
  = Returned
      {| state := failed;
         subscribers := subscribers cancelling_store;
         calls := [ called_with requested canceller;
                    called_with failed canceller;
                    called_with failed (observer "list");
                    called_with failed (observer "list") ] |}.
Proof.
  intros requested failed.
  apply (dispatch_deeper _ _ 2); [vm_compute; reflexivity|discriminate|lia].
Qed.

(** C3, as stated, fails in the store of the canceller: the reducer of the
    request returns [fetchMoviesRequest ∅], and at no depth does [dispatch]
    make one call per registration with that state; the second subscriber
    is never called with it. *)
Lemma reentrant_subscriber_changes_the_state_notified :
  reducers !! type request
  = Some (fun state _ _ => Normal (fetchMoviesRequest state))
  /\ ~ (exists fuel,
         notifies_each_with reducers (effects "key") (fetchMoviesRequest ∅)
           fuel request cancelling_store).
Proof.
  split; [reflexivity|].
  intros [fuel [after [Hrun Hcalls]]].
  destruct fuel as [|[|fuel]]; [discriminate Hrun|discriminate Hrun|].
  change (S (S fuel)) with (2 + fuel) in Hrun.
  rewrite dispatch_cancelling_store in Hrun. injection Hrun as <-.
  vm_compute in Hcalls. discriminate Hcalls.
Qed.

(** ** The action types *)

(** C4. Three of the four types are the strings of their names. The fourth
    is not: [SHOW_MOVIE_DESCRIPTION] holds ["SHOW_MOVIES_DESCRIPTION"], the
    reducer is registered under that string, and an action of type
    ["SHOW_MOVIE_DESCRIPTION"] is dropped by [dispatch]. *)
Theorem show_description_type_is_misspelt :
  FETCH_MOVIES_REQUEST = "FETCH_MOVIES_REQUEST"
  /\ FETCH_MOVIES_SUCCESS = "FETCH_MOVIES_SUCCESS"
  /\ FETCH_MOVIES_FAILURE = "FETCH_MOVIES_FAILURE"
  /\ SHOW_MOVIE_DESCRIPTION = "SHOW_MOVIES_DESCRIPTION"
  /\ SHOW_MOVIE_DESCRIPTION <> "SHOW_MOVIE_DESCRIPTION"
  /\ reducers !! "SHOW_MOVIES_DESCRIPTION"
     = Some (fun state action _ => showMovieDescription state action)
  /\ reducers !! "SHOW_MOVIE_DESCRIPTION" = None
  /\ forall fuel key store,
       dispatch reducers (effects key) fuel
         {| type := "SHOW_MOVIE_DESCRIPTION";
            payload := {[ "index" := Prim (Num (Int 1)) ]} |} store
       = Returned store.
Proof.
  split; [reflexivity|]. split; [reflexivity|]. split; [reflexivity|].
  split; [reflexivity|]. split; [discriminate|].
  split; [reflexivity|]. split; [reflexivity|].
  intros fuel key store. reflexivity.
Qed.

(** ** The search effect *)

Lemma or_string_spec (a b : string) :
  (a = "" -> or_string a b = b) /\ (a <> "" -> or_string a b = a).
Proof.
  unfold or_string, truthy_val.
  destruct (String.eqb_spec a "") as [->|Hne]; simpl; split; congruence.
Qed.

Section EffectProperties.

Variable reducers : gmap string Reducer.
Variable effects : gmap string Effect.

(** The [catch] handler, run on a rejection: one call of [dispatch]. *)
Lemma catch_dispatches_failure fuel reason store :
  exec reducers effects (S (S (S fuel)))
    (Catch (Throw reason)
       (fun error =>
          CallDispatch (failure (or_string (template error) "Unknown error"))
            Done))
    store
  = dispatch reducers effects (S fuel)
      (failure (or_string (template reason) "Unknown error")) store.
Proof. simpl. apply and_then_Returned. Qed.

(** C5. When the search fails (the network, the status, the body), the
    handlers that run once [fetch] has settled do what one call of
    [dispatch] with a FETCH_MOVIES_FAILURE action does, and nothing else.
    The [error] of that action is a string that is not empty: the reason
    of the failure as a template prints it, or ["Unknown error"] when that
    prints nothing. *)
Theorem search_failure_dispatches_failure fuel fetched reason store :
  SearchFailure fetched reason ->
  exists message,
    exec reducers effects (S (S (S fuel)))
      (fetchMoviesRequestEffect_settled fetched) store
    = dispatch reducers effects (S fuel) (failure message) store
    /\ type (failure message) = "FETCH_MOVIES_FAILURE"
    /\ get (payload (failure message)) "error" = Prim (Str message)
    /\ message <> ""
    /\ (template reason <> "" -> message = template reason)
    /\ (template reason = "" -> message = "Unknown error").
Proof.
  intros Hfails.
  exists (or_string (template reason) "Unknown error").
  destruct (or_string_spec (template reason) "Unknown error")
    as [Hempty Hfull].
  split.
  - destruct Hfails as [reason|response Hok|response reason Hok Hjson];
      unfold fetchMoviesRequestEffect_settled, then_.
    + apply catch_dispatches_failure.
    + rewrite Hok. apply catch_dispatches_failure.
    + rewrite Hok. simpl negb. cbv iota. rewrite Hjson.
      apply catch_dispatches_failure.
  - split; [reflexivity|]. split; [reflexivity|].
    split; [|split; [exact Hfull|exact Hempty]].
    destruct (String.eqb_spec (template reason) "") as [Heq|Hne].
    + rewrite (Hempty Heq). discriminate.
    + rewrite (Hfull Hne). exact Hne.
Qed.

End EffectProperties.

Lemma search_failure_dispatches_failure_witness :
  SearchFailure (Fulfilled (mkResponse false "" (Rejected (ThrownVal Undefined))))
    (ThrownVal (Str ""))
  /\ exists message,
       exec reducers (effects "key") 3
         (fetchMoviesRequestEffect_settled
            (Fulfilled (mkResponse false "" (Rejected (ThrownVal Undefined)))))
         (observed_store ∅)
       = dispatch reducers (effects "key") 1 (failure message) (observed_store ∅)
       /\ type (failure message) = "FETCH_MOVIES_FAILURE"
       /\ get (payload (failure message)) "error" = Prim (Str message)
       /\ message <> ""
       /\ (template (ThrownVal (Str "")) <> "" ->
           message = template (ThrownVal (Str "")))
       /\ (template (ThrownVal (Str "")) = "" -> message = "Unknown error").
Proof.
  assert (SearchFailure
            (Fulfilled (mkResponse false "" (Rejected (ThrownVal Undefined))))
            (ThrownVal (Str ""))) as Hfails.
  { apply (StatusFailure (mkResponse false "" (Rejected (ThrownVal Undefined)))).
    reflexivity. }
  split; [exact Hfails|].
  apply (search_failure_dispatches_failure reducers (effects "key") 0 _ _
           (observed_store ∅) Hfails).
Defined.

(** ** The reducers *)

Lemma item_flag_set (it : Obj) (b : bool) :
  Object_assign ∅ [it; {[ "showDescription" := Bool b ]}] !! "showDescription"
  = Some (Bool b).
Proof. apply Object_assign_patched. apply lookup_singleton_eq. Qed.

Lemma item_rest_kept (it : Obj) (b : bool) (k : string) :
  k <> "showDescription" ->
  Object_assign ∅ [it; {[ "showDescription" := Bool b ]}] !! k = it !! k.
Proof.
  intros Hk. apply Object_assign_kept. by apply lookup_singleton_ne.
Qed.

(** With items to show, the reducer maps over them and does not throw. *)
Lemma showMovieDescription_mapped (state : State) (action : Action)
    (first : Obj) (rest : list Obj) :
  state !! "items" = Some (Arr (first :: rest)) ->
  showMovieDescription state action
  = Normal (Object_assign ∅
              [state;
               {[ "items" := Arr (imap (flag_item action) (first :: rest)) ]}]).
Proof.
  intros Hitems. unfold showMovieDescription.
  rewrite (get_Some _ _ _ Hitems). reflexivity.
Qed.

(** Without items, or with none in the list, the reducer skips the [if]. *)
Lemma showMovieDescription_skipped (state : State) (action : Action) :
  state !! "items" = None \/ state !! "items" = Some (Arr []) ->
  showMovieDescription state action
  = Normal (Object_assign ∅ [state; {[ "items" := Prim Undefined ]}]).
Proof.
  intros [Hitems|Hitems]; unfold showMovieDescription, get;
    rewrite Hitems; reflexivity.
Qed.

Lemma index_strict_equals_out_of_range (v : JsValue) (n index : nat) :
  (forall z, v = Prim (Num (Int z)) -> ~ (0 <= z < Z.of_nat n)%Z) ->
  index < n ->
  index_strict_equals index v = false.
Proof.
  intros Hout Hlt.
  destruct v as [[| |b|[z|t]|s]|l]; simpl; try reflexivity.
  apply Z.eqb_neq. intros <-. apply (Hout _ eq_refl). lia.
Qed.

(** C6. A state with three items and an action with [index] 1: the reducer
    registered for [SHOW_MOVIE_DESCRIPTION] returns a state with three
    items, [showDescription] true on the second and false on the first and
    the third, every other property of each item as it was. *)
Theorem show_description_of_second_of_three (state : State) (action : Action)
    (i0 i1 i2 : Obj) :
  state !! "items" = Some (Arr [i0; i1; i2]) ->
  payload action !! "index" = Some (Prim (Num (Int 1))) ->
  exists reducer newState j0 j1 j2,
    reducers !! SHOW_MOVIE_DESCRIPTION = Some reducer
    /\ reducer state action dispatchers = Normal newState
    /\ newState !! "items" = Some (Arr [j0; j1; j2])
    /\ j0 !! "showDescription" = Some (Bool false)
    /\ j1 !! "showDescription" = Some (Bool true)
    /\ j2 !! "showDescription" = Some (Bool false)
    /\ forall k, k <> "showDescription" ->
         j0 !! k = i0 !! k /\ j1 !! k = i1 !! k /\ j2 !! k = i2 !! k.
Proof.
  intros Hitems Hindex.
  exists (fun state action _ => showMovieDescription state action).
  eexists. exists (flag_item action 0 i0), (flag_item action 1 i1),
    (flag_item action 2 i2).
  split; [reflexivity|].
  split; [apply (showMovieDescription_mapped _ _ _ _ Hitems)|].
  split; [apply Object_assign_patched; apply lookup_singleton_eq|].
  unfold flag_item. rewrite (get_Some _ _ _ Hindex). simpl.
  split; [apply item_flag_set|]. split; [apply item_flag_set|].
  split; [apply item_flag_set|].
  intros k Hk. repeat split; by apply item_rest_kept.
Qed.

(** C7. The reducer registered for [FETCH_MOVIES_REQUEST] returns, for
    every state, a state where [isFetchingItems] is true, [error] is
    [undefined], and every other property is as it was. *)
Theorem request_sets_fetching_and_clears_error :
  exists reducer,
    reducers !! FETCH_MOVIES_REQUEST = Some reducer
    /\ forall (state : State) (action : Action),
         exists newState,
           reducer state action dispatchers = Normal newState
           /\ newState !! "isFetchingItems" = Some (Prim (Bool true))
           /\ newState !! "error" = Some (Prim Undefined)
           /\ forall k, k <> "isFetchingItems" -> k <> "error" ->
                newState !! k = state !! k.
Proof.
  exists (fun state _ _ => Normal (fetchMoviesRequest state)).
  split; [reflexivity|]. intros state action.
  exists (fetchMoviesRequest state). split; [reflexivity|].
  unfold fetchMoviesRequest.
  split; [by apply Object_assign_patched|].
  split; [by apply Object_assign_patched|].
  intros k Hfetching Herror. apply Object_assign_kept.
  rewrite lookup_insert_ne by congruence. by apply lookup_singleton_ne.
Qed.

(** C8. A failure action whose [error] is ["Network down"]: the reducer
    registered for [FETCH_MOVIES_FAILURE] returns a state where [error] is
    ["Network down"], [items] is [undefined], [isFetchingItems] is false,
    and every other property is as it was. *)
Theorem failure_records_error_and_clears_items (state : State)
    (action : Action) :
  payload action !! "error" = Some (Prim (Str "Network down")) ->
  exists reducer newState,
    reducers !! FETCH_MOVIES_FAILURE = Some reducer
    /\ reducer state action dispatchers = Normal newState
    /\ newState !! "error" = Some (Prim (Str "Network down"))
    /\ newState !! "items" = Some (Prim Undefined)
    /\ newState !! "isFetchingItems" = Some (Prim (Bool false))
    /\ forall k, k <> "error" -> k <> "items" -> k <> "isFetchingItems" ->
         newState !! k = state !! k.
Proof.
  intros Herror.
  exists (fun state action _ => Normal (fetchMoviesFailure state action)),
    (fetchMoviesFailure state action).
  split; [reflexivity|]. split; [reflexivity|].
  unfold fetchMoviesFailure. rewrite (get_Some _ _ _ Herror).
  split; [by apply Object_assign_patched|].
  split; [by apply Object_assign_patched|].
  split; [by apply Object_assign_patched|].
  intros k Hne1 Hne2 Hne3. apply Object_assign_kept.
  rewrite !lookup_insert_ne by congruence. by apply lookup_singleton_ne.
Qed.

(** C9. A state without [items], or with an empty list of them: whatever
    the index, the reducer registered for [SHOW_MOVIE_DESCRIPTION] returns
    a state whose [items] is [undefined]; the state returned differs from
    the one given, an empty list included; every other property is as it
    was. *)
Theorem show_description_without_items (state : State) (action : Action) :
  state !! "items" = None \/ state !! "items" = Some (Arr []) ->
  exists reducer newState,
    reducers !! SHOW_MOVIE_DESCRIPTION = Some reducer
    /\ reducer state action dispatchers = Normal newState
    /\ newState !! "items" = Some (Prim Undefined)
    /\ get newState "items" = Prim Undefined
    /\ newState <> state
    /\ forall k, k <> "items" -> newState !! k = state !! k.
Proof.
  intros Hitems.
  exists (fun state action _ => showMovieDescription state action).
  eexists. split; [reflexivity|].
  split; [apply (showMovieDescription_skipped _ _ Hitems)|].
  assert (Object_assign ∅ [state; {[ "items" := Prim Undefined ]}] !! "items"
          = Some (Prim Undefined)) as Hcleared.
  { apply Object_assign_patched. apply lookup_singleton_eq. }
  split; [exact Hcleared|]. split; [exact (get_Some _ _ _ Hcleared)|].
  split.
  - intros Hsame. rewrite Hsame in Hcleared.
    destruct Hitems as [Hitems|Hitems]; congruence.
  - intros k Hk. apply Object_assign_kept. by apply lookup_singleton_ne.
Qed.

(** C10. A state with items and an action whose [index] is not a whole
    number from 0 up to their number: the reducer registered for
    [SHOW_MOVIE_DESCRIPTION] returns (it does not throw) a state with as
    many items, [showDescription] false on each, every other property of
    each item as it was. *)
Theorem show_description_out_of_range (state : State) (action : Action)
    (l : list Obj) :
  state !! "items" = Some (Arr l) ->
  l <> [] ->
  (forall z, get (payload action) "index" = Prim (Num (Int z)) ->
             ~ (0 <= z < Z.of_nat (length l))%Z) ->
  exists reducer newState items,
    reducers !! SHOW_MOVIE_DESCRIPTION = Some reducer
    /\ reducer state action dispatchers = Normal newState
    /\ newState !! "items" = Some (Arr items)
    /\ length items = length l
    /\ forall index it,
         l !! index = Some it ->
         exists it',
           items !! index = Some it'
           /\ it' !! "showDescription" = Some (Bool false)
           /\ forall k, k <> "showDescription" -> it' !! k = it !! k.
Proof.
  intros Hitems Hsome Hout.
  exists (fun state action _ => showMovieDescription state action).
  eexists. exists (imap (flag_item action) l).
  split; [reflexivity|].
  split.
  { destruct l as [|first rest]; [congruence|].
    apply (showMovieDescription_mapped _ _ _ _ Hitems). }
  split; [apply Object_assign_patched; apply lookup_singleton_eq|].
  split; [apply length_imap|].
  intros index it Hit.
  exists (flag_item action index it).
  split; [by rewrite list_lookup_imap, Hit|].
  unfold flag_item.
  rewrite (index_strict_equals_out_of_range _ (length l) index Hout)
    by (by eapply lookup_lt_Some).
  split; [apply item_flag_set|].
  intros k Hk. by apply item_rest_kept.
Qed.

Lemma show_description_of_second_of_three_witness :
  three_items !! "items"
  = Some (Arr [item "Alien" true; item "Brazil" false; item "Charade" false])
  /\ payload (show 1) !! "index" = Some (Prim (Num (Int 1)))
  /\ exists reducer newState j0 j1 j2,
       reducers !! SHOW_MOVIE_DESCRIPTION = Some reducer
       /\ reducer three_items (show 1) dispatchers = Normal newState
       /\ newState !! "items" = Some (Arr [j0; j1; j2])
       /\ j0 !! "showDescription" = Some (Bool false)
       /\ j1 !! "showDescription" = Some (Bool true)
       /\ j2 !! "showDescription" = Some (Bool false)
       /\ forall k, k <> "showDescription" ->
            j0 !! k = item "Alien" true !! k
            /\ j1 !! k = item "Brazil" false !! k
            /\ j2 !! k = item "Charade" false !! k.
Proof.
  split; [reflexivity|]. split; [reflexivity|].
  apply (show_description_of_second_of_three three_items (show 1)
           (item "Alien" true) (item "Brazil" false) (item "Charade" false));
    reflexivity.
Defined.

Lemma failure_records_error_and_clears_items_witness :
  payload (failure "Network down") !! "error" = Some (Prim (Str "Network down"))
  /\ exists reducer newState,
       reducers !! FETCH_MOVIES_FAILURE = Some reducer
       /\ reducer three_items (failure "Network down") dispatchers
          = Normal newState
       /\ newState !! "error" = Some (Prim (Str "Network down"))
       /\ newState !! "items" = Some (Prim Undefined)
       /\ newState !! "isFetchingItems" = Some (Prim (Bool false))
       /\ forall k, k <> "error" -> k <> "items" -> k <> "isFetchingItems" ->
            newState !! k = three_items !! k.
Proof.
  split; [reflexivity|].
  apply (failure_records_error_and_clears_items three_items
           (failure "Network down")).
  reflexivity.
Defined.

Lemma show_description_without_items_witness :
  (no_items !! "items" = None \/ no_items !! "items" = Some (Arr []))
  /\ exists reducer newState,
       reducers !! SHOW_MOVIE_DESCRIPTION = Some reducer
       /\ reducer no_items (show 0) dispatchers = Normal newState
       /\ newState !! "items" = Some (Prim Undefined)
       /\ get newState "items" = Prim Undefined
       /\ newState <> no_items
       /\ forall k, k <> "items" -> newState !! k = no_items !! k.
Proof.
  assert (no_items !! "items" = None \/ no_items !! "items" = Some (Arr []))
    as Hitems.
  { right. reflexivity. }
  split; [exact Hitems|].
  apply (show_description_without_items no_items (show 0) Hitems).
Defined.

Lemma show_description_out_of_range_witness :
  three_items !! "items"
  = Some (Arr [item "Alien" true; item "Brazil" false; item "Charade" false])
  /\ [item "Alien" true; item "Brazil" false; item "Charade" false] <> []
  /\ (forall z, get (payload (show 3)) "index" = Prim (Num (Int z)) ->
                ~ (0 <= z < Z.of_nat 3)%Z)
  /\ exists reducer newState items,
       reducers !! SHOW_MOVIE_DESCRIPTION = Some reducer
       /\ reducer three_items (show 3) dispatchers = Normal newState
       /\ newState !! "items" = Some (Arr items)
       /\ length items = 3
       /\ forall index it,
            [item "Alien" true; item "Brazil" false; item "Charade" false]
              !! index = Some it ->
            exists it',
              items !! index = Some it'
              /\ it' !! "showDescription" = Some (Bool false)
              /\ forall k, k <> "showDescription" -> it' !! k = it !! k.
Proof.
  assert (forall z, get (payload (show 3)) "index" = Prim (Num (Int z)) ->
                    ~ (0 <= z < Z.of_nat 3)%Z) as Hout.
  { intros z Hz. vm_compute in Hz. injection Hz as <-. lia. }
  split; [reflexivity|]. split; [discriminate|]. split; [exact Hout|].
  apply (show_description_out_of_range three_items (show 3)
           [item "Alien" true; item "Brazil" false; item "Charade" false]
           eq_refl ltac:(discriminate) Hout).
Defined.

(** * More properties of the store *)

Section StoreRuns.

Variable reducers : gmap string Reducer.
Variable effects : gmap string Effect.

Lemma forEach_app {A : Type} (before after : list A)
    (callback : A -> Store -> Outcome) (store : Store) :
  forEach (before ++ after) callback store
  = and_then (forEach before callback store) (forEach after callback).
Proof.
  revert store. induction before as [|x before IH]; intros store; simpl.
  - reflexivity.
  - destruct (callback x store) as [store'|e store'|]; simpl;
      [apply IH|reflexivity|reflexivity].
Qed.

Lemma forEach_cons {A : Type} (x : A) (rest : list A)
    (callback : A -> Store -> Outcome) (store : Store) :
  forEach (x :: rest) callback store
  = and_then (callback x store) (forEach rest callback).
Proof. reflexivity. Qed.

Lemma final_and_then (o : Outcome) (next : Store -> Outcome) (store' : Store) :
  final (and_then o next) = Some store' ->
  (exists e, o = Threw e store')
  \/ (exists mid, o = Returned mid /\ final (next mid) = Some store').
Proof.
  destruct o as [mid|e mid|]; simpl; intros Hfinal.
  - right. by exists mid.
  - left. exists e. congruence.
  - discriminate.
Qed.

(** *** A relation every step of the store respects is respected by every
    run *)

Section Respect.

Variable R : Store -> Store -> Prop.
Hypothesis R_refl : forall store, R store store.
Hypothesis R_trans : forall a b c, R a b -> R b c -> R a c.
Hypothesis R_subscriber : forall store name,
  R store (record (SubscriberCalled name (state store) dispatchers) store).
Hypothesis R_effect : forall store action,
  R store
    (record (EffectCalled (type action) (state store) action dispatchers) store).
Hypothesis R_fetch : forall store url, R store (record (FetchCalled url) store).
Hypothesis R_subscribe : forall store subscriber,
  R store (subscribe subscriber store).
Hypothesis R_reduce : forall store action reducer newState,
  reducers !! type action = Some reducer ->
  reducer (state store) action dispatchers = Normal newState ->
  R store (set_state newState store).

Lemma forEach_respects {A : Type} (array : list A)
    (callback : A -> Store -> Outcome) :
  (forall x store store',
     final (callback x store) = Some store' -> R store store') ->
  forall store store',
    final (forEach array callback store) = Some store' -> R store store'.
Proof.
  intros Hcallback. induction array as [|x rest IH]; intros store store'; simpl.
  - intros [= <-]. apply R_refl.
  - intros Hfinal.
    destruct (final_and_then _ _ _ Hfinal) as [[e He]|[mid [Hmid Hrest]]].
    + apply (Hcallback x). by rewrite He.
    + apply R_trans with mid; [|by apply IH].
      apply (Hcallback x). by rewrite Hmid.
Qed.

Lemma dispatch_with_respects (run : Script -> Store -> Outcome) :
  (forall s store store', final (run s store) = Some store' -> R store store') ->
  forall action store store',
    final (dispatch_with reducers run action store) = Some store' ->
    R store store'.
Proof.
  intros Hrun action store store'. unfold dispatch_with.
  destruct (reducers !! type action) as [reducer|] eqn:Hreducer;
    [|intros [= <-]; apply R_refl].
  destruct (reducer (state store) action dispatchers) as [newState|e]
    eqn:Hreturns; [|intros [= <-]; apply R_refl].
  intros Hfinal. apply R_trans with (set_state newState store).
  - by apply (R_reduce _ action reducer).
  - revert Hfinal. apply forEach_respects.
    intros subscriber mid mid' Hnotify.
    apply R_trans with
      (record (SubscriberCalled (sub_name subscriber) (state mid) dispatchers)
         mid); [apply R_subscriber|].
    by apply (Hrun _ _ _ Hnotify).
Qed.

Lemma dispatchEffect_with_respects (run : Script -> Store -> Outcome) :
  (forall s store store', final (run s store) = Some store' -> R store store') ->
  forall action store store',
    final (dispatchEffect_with effects run action store) = Some store' ->
    R store store'.
Proof.
  intros Hrun action store store'. unfold dispatchEffect_with.
  destruct (effects !! type action) as [effect|];
    [|intros [= <-]; apply R_refl].
  intros Hfinal.
  apply R_trans with
    (record (EffectCalled (type action) (state store) action dispatchers)
       store); [apply R_effect|].
  by apply (Hrun _ _ _ Hfinal).
Qed.

Lemma exec_respects fuel : forall s store store',
  final (exec reducers effects fuel s store) = Some store' -> R store store'.
Proof.
  induction fuel as [|fuel IH]; intros s store store'; [discriminate|].
  destruct s as [|e|action next|action next|name body next|url next
                 |body handler]; simpl.
  - intros [= <-]. apply R_refl.
  - intros [= <-]. apply R_refl.
  - intros Hfinal.
    destruct (final_and_then _ _ _ Hfinal) as [[e He]|[mid [Hmid Hnext]]].
    + apply (dispatch_with_respects _ IH action). by rewrite He.
    + apply R_trans with mid; [|by apply (IH next)].
      apply (dispatch_with_respects _ IH action). by rewrite Hmid.
  - intros Hfinal.
    destruct (final_and_then _ _ _ Hfinal) as [[e He]|[mid [Hmid Hnext]]].
    + apply (dispatchEffect_with_respects _ IH action). by rewrite He.
    + apply R_trans with mid; [|by apply (IH next)].
      apply (dispatchEffect_with_respects _ IH action). by rewrite Hmid.
  - intros Hfinal.
    apply R_trans with (subscribe (mkSubscriber name body) store);
      [apply R_subscribe|by apply (IH next)].
  - intros Hfinal.
    apply R_trans with (record (FetchCalled url) store);
      [apply R_fetch|by apply (IH next)].
  - destruct (exec reducers effects fuel body store) as [mid|e mid|]
      eqn:Hbody.
    + intros [= <-]. apply (IH body). by rewrite Hbody.
    + intros Hfinal. apply R_trans with mid; [|by apply (IH (handler e))].
      apply (IH body). by rewrite Hbody.
    + discriminate.
Qed.

End Respect.

End StoreRuns.

Section StoreEdges.

Variable reducers : gmap string Reducer.
Variable effects : gmap string Effect.

Lemma exec_dispatch_only fuel action store :
  exec reducers effects (S (S fuel)) (CallDispatch action Done) store
  = dispatch reducers effects (S fuel) action store.
Proof. simpl. apply and_then_Returned. Qed.

Lemma exec_catch_dispatch fuel action handler store :
  exec reducers effects (S (S (S fuel)))
    (Catch (CallDispatch action Done) handler) store
  = match dispatch reducers effects (S fuel) action store with
    | Threw e store' => exec reducers effects (S (S fuel)) (handler e) store'
    | o => o
    end.
Proof.
  change (exec reducers effects (S (S (S fuel)))
            (Catch (CallDispatch action Done) handler) store)
    with (match
            exec reducers effects (S (S fuel)) (CallDispatch action Done) store
          with
          | Threw e store' =>
              exec reducers effects (S (S fuel)) (handler e) store'
          | o => o
          end).
  by rewrite exec_dispatch_only.
Qed.

(** X1. [subscribe] leaves the state alone and registers at the end: in a
    store whose subscribers only look, a subscriber added by [subscribe] is
    called by the next [dispatch] after all those registered before it, with
    the state the reducer returned. *)
Theorem subscribe_registers_last fuel action store subscriber reducer newState :
  reducers !! type action = Some reducer ->
  reducer (state store) action dispatchers = Normal newState ->
  Forall (passive_at newState) (subscribers store) ->
  passive_at newState subscriber ->
  getState (subscribe subscriber store) = getState store
  /\ dispatch reducers effects (S fuel) action (subscribe subscriber store)
     = Returned
         {| state := newState;
            subscribers := subscribers store ++ [subscriber];
            calls := calls store
                     ++ map (called_with newState) (subscribers store)
                     ++ [called_with newState subscriber] |}.
Proof.
  intros Hreducer Hreturns Hpassive Hnew. split; [reflexivity|].
  rewrite (dispatch_commits _ _ _ _ _ reducer newState) by assumption.
  rewrite forEach_passive.
  - simpl. by rewrite map_app.
  - simpl. apply Forall_app. split; [exact Hpassive|by constructor].
Qed.

(** X2. A subscriber that throws: [dispatch] throws the same value, the
    state is already the one the reducer returned (it is not put back), the
    subscribers before the one that throws were called and those after it
    are not. *)
Theorem subscriber_fault_keeps_new_state fuel action store reducer newState
    (before after : list Subscriber) thrower e :
  reducers !! type action = Some reducer ->
  reducer (state store) action dispatchers = Normal newState ->
  subscribers store = (before ++ thrower :: after)%list ->
  Forall (passive_at newState) before ->
  sub_body thrower newState dispatchers = Throw e ->
  dispatch reducers effects (S fuel) action store
  = Threw e
      {| state := newState;
         subscribers := subscribers store;
         calls := calls store
                  ++ map (called_with newState) (before ++ [thrower]) |}.
Proof.
  intros Hreducer Hreturns Hsubs Hpassive Hthrows.
  rewrite (dispatch_commits _ _ _ _ _ reducer newState) by assumption.
  rewrite Hsubs, forEach_app, forEach_passive by exact Hpassive.
  simpl. unfold notify at 1. simpl. rewrite Hthrows. simpl.
  unfold record. simpl. rewrite Hsubs, map_app, <- app_assoc. reflexivity.
Qed.

(** X3. A subscriber that calls [subscribe] while it is being notified: the
    subscriber it adds is registered when [dispatch] returns, and was not
    called in this round, which calls the subscribers there were when the
    round began. *)
Theorem subscriber_added_while_notifying_waits fuel action store reducer
    newState (before after : list Subscriber) registrar name body :
  reducers !! type action = Some reducer ->
  reducer (state store) action dispatchers = Normal newState ->
  subscribers store = (before ++ registrar :: after)%list ->
  Forall (passive_at newState) before ->
  Forall (passive_at newState) after ->
  sub_body registrar newState dispatchers = CallSubscribe name body Done ->
  dispatch reducers effects (S (S fuel)) action store
  = Returned
      {| state := newState;
         subscribers := subscribers store ++ [mkSubscriber name body];
         calls := calls store
                  ++ map (called_with newState) (subscribers store) |}.
Proof.
  intros Hreducer Hreturns Hsubs Hbefore Hafter Hregisters.
  assert (forall st,
            state st = newState ->
            notify (exec reducers effects (S (S fuel))) registrar st
            = Returned (subscribe (mkSubscriber name body)
                          (record (called_with newState registrar) st)))
    as Hcall.
  { intros st Hst. unfold notify. by rewrite Hst, Hregisters. }
  rewrite (dispatch_commits _ _ _ _ _ reducer newState) by assumption.
  rewrite Hsubs, forEach_app, forEach_passive by exact Hbefore.
  cbn [and_then]. rewrite forEach_cons, Hcall by reflexivity.
  cbn [and_then]. rewrite forEach_passive by exact Hafter.
  f_equal. unfold subscribe, record, set_state. simpl.
  rewrite Hsubs, map_app, <- !app_assoc. reflexivity.
Qed.

(** X4. Whatever the callbacks do, a call of [dispatch] or of
    [dispatchEffect] that returns or throws leaves every subscriber that was
    registered still registered, at the same place: the list only grows at
    its end. *)
Theorem subscribers_only_grow fuel action store store' :
  final (dispatch reducers effects fuel action store) = Some store'
  \/ final (dispatchEffect reducers effects fuel action store) = Some store' ->
  subscribers store `prefix_of` subscribers store'.
Proof.
  set (R := fun a b : Store => subscribers a `prefix_of` subscribers b).
  assert (forall s a b,
            final (exec reducers effects fuel s a) = Some b -> R a b) as Hexec.
  { intros s. apply (exec_respects reducers effects R); unfold R; simpl;
      try (intros; reflexivity).
    - intros a b c Hab Hbc. by etrans.
    - intros a subscriber. by apply prefix_app_r. }
  intros [Hfinal|Hfinal].
  - revert Hfinal.
    apply (dispatch_with_respects reducers R); unfold R; simpl;
      try (intros; reflexivity); [|exact Hexec].
    intros a b c Hab Hbc. by etrans.
  - revert Hfinal.
    apply (dispatchEffect_with_respects effects R); unfold R; simpl;
      try (intros; reflexivity); [|exact Hexec].
    intros a b c Hab Hbc. by etrans.
Qed.


End StoreEdges.

(** * More properties of the reducers *)

Lemma patch_again {V : Type} (k : string) (v v' : V) (m : gmap string V) :
  Object_assign ∅ [Object_assign ∅ [m; {[ k := v ]}]; {[ k := v' ]}]
  = Object_assign ∅ [m; {[ k := v' ]}].
Proof.
  rewrite !Object_assign_copy, <- !insert_union_singleton_l.
  apply insert_insert_eq.
Qed.

Lemma flag_item_again (action : Action) (index : nat) (it : Obj) :
  flag_item action index (flag_item action index it) = flag_item action index it.
Proof.
  unfold flag_item.
  destruct (index_strict_equals index (get (payload action) "index"));
    apply patch_again.
Qed.

Lemma showMovieDescription_keeps (state newState : State) (action : Action)
    (k : string) :
  showMovieDescription state action = Normal newState ->
  k <> "items" ->
  newState !! k = state !! k.
Proof.
  unfold showMovieDescription. intros Hreturns Hk.
  destruct (truthy (get state "items")
            && truthy_val (length_of (get state "items"))
            && greater_than_0 (length_of (get state "items")));
    [destruct (get state "items"); [discriminate|]|];
    injection Hreturns as <-; apply Object_assign_kept;
    by apply lookup_singleton_ne.
Qed.


(** X6. The reducer registered for [FETCH_MOVIES_SUCCESS] returns, for
    every state and action, a state whose [items] is the [data] of the
    action ([undefined] when the action has none) and whose
    [isFetchingItems] is false; every other property is as it was, so an
    [error] the state had is still there. *)
Theorem success_sets_items_and_keeps_error :
  exists reducer,
    reducers !! FETCH_MOVIES_SUCCESS = Some reducer
    /\ forall (state : State) (action : Action),
         exists newState,
           reducer state action dispatchers = Normal newState
           /\ newState !! "items" = Some (get (payload action) "data")
           /\ newState !! "isFetchingItems" = Some (Prim (Bool false))
           /\ newState !! "error" = state !! "error"
           /\ forall k, k <> "items" -> k <> "isFetchingItems" ->
                newState !! k = state !! k.
Proof.
  exists (fun state action _ => Normal (fetchMoviesSuccess state action)).
  split; [reflexivity|]. intros state action.
  exists (fetchMoviesSuccess state action). split; [reflexivity|].
  assert (forall k, k <> "items" -> k <> "isFetchingItems" ->
                    fetchMoviesSuccess state action !! k = state !! k) as Hkept.
  { intros k Hitems Hfetching. apply Object_assign_kept.
    rewrite lookup_insert_ne by congruence. by apply lookup_singleton_ne. }
  unfold fetchMoviesSuccess at 1 2.
  split; [apply Object_assign_patched; apply lookup_insert_eq|].
  split; [by apply Object_assign_patched|].
  split; [by apply Hkept|exact Hkept].
Qed.

Lemma showMovieDescription_selects (state : State) (action : Action)
    (l : list Obj) (selected : nat) :
  state !! "items" = Some (Arr l) ->
  payload action !! "index" = Some (Prim (Num (Int (Z.of_nat selected)))) ->
  selected < length l ->
  exists newState items,
    showMovieDescription state action = Normal newState
    /\ newState !! "items" = Some (Arr items)
    /\ length items = length l
    /\ (forall index it,
          l !! index = Some it ->
          exists it',
            items !! index = Some it'
            /\ it' !! "showDescription"
               = Some (Bool (bool_decide (index = selected)))
            /\ forall k, k <> "showDescription" -> it' !! k = it !! k)
    /\ forall k, k <> "items" -> newState !! k = state !! k.
Proof.
  intros Hitems Hindex Hselected.
  assert (exists first rest, l = first :: rest) as (first & rest & ->).
  { destruct l as [|first rest]; [simpl in Hselected; lia|by eauto]. }
  pose proof (showMovieDescription_mapped _ action _ _ Hitems) as Hreturns.
  eexists. exists (imap (flag_item action) (first :: rest)).
  split; [exact Hreturns|].
  split; [apply Object_assign_patched; apply lookup_singleton_eq|].
  split; [apply length_imap|]. split.
  - intros index it Hit. exists (flag_item action index it).
    split; [by rewrite list_lookup_imap, Hit|].
    unfold flag_item. rewrite (get_Some _ _ _ Hindex). simpl.
    destruct (Z.eqb_spec (Z.of_nat index) (Z.of_nat selected)) as [Heq|Hne].
    + rewrite bool_decide_eq_true_2 by lia.
      split; [apply item_flag_set|]. intros k Hk. by apply item_rest_kept.
    + rewrite bool_decide_eq_false_2 by lia.
      split; [apply item_flag_set|]. intros k Hk. by apply item_rest_kept.
  - intros k Hk. by apply (showMovieDescription_keeps _ _ action k Hreturns).
Qed.

(** X7. A state with items and an action whose [index] is the number of
    one of them: [showMovieDescription] returns a state with as many items,
    [showDescription] true on that one and false on every other, every other
    property of each item and of the state as it was. *)
Theorem show_description_selects_one (state : State) (action : Action)
    (l : list Obj) (selected : nat) :
  state !! "items" = Some (Arr l) ->
  payload action !! "index" = Some (Prim (Num (Int (Z.of_nat selected)))) ->
  selected < length l ->
  exists newState items,
    showMovieDescription state action = Normal newState
    /\ newState !! "items" = Some (Arr items)
    /\ length items = length l
    /\ (forall index it,
          l !! index = Some it ->
          exists it',
            items !! index = Some it'
            /\ it' !! "showDescription"
               = Some (Bool (bool_decide (index = selected)))
            /\ forall k, k <> "showDescription" -> it' !! k = it !! k)
    /\ forall k, k <> "items" -> newState !! k = state !! k.
Proof. apply showMovieDescription_selects. Qed.

Lemma showMovieDescription_undefined (state : State) (action : Action) :
  get state "items" = Prim Undefined ->
  showMovieDescription state action
  = Normal (Object_assign ∅ [state; {[ "items" := Prim Undefined ]}]).
Proof. unfold showMovieDescription. by intros ->. Qed.

Lemma imap_flag_item_again (action : Action) (l : list Obj) :
  imap (flag_item action) (imap (flag_item action) l)
  = imap (flag_item action) l.
Proof.
  apply list_eq. intros index. rewrite !list_lookup_imap.
  destruct (l !! index); simpl; [by rewrite flag_item_again|reflexivity].
Qed.

(** The state [showMovieDescription] returns when it skips the [if]. *)
Lemma show_description_twice_skipped (state : State) (action : Action) :
  showMovieDescription
    (Object_assign ∅ [state; {[ "items" := Prim Undefined ]}]) action
  = Normal (Object_assign ∅ [state; {[ "items" := Prim Undefined ]}]).
Proof.
  rewrite showMovieDescription_undefined; [by rewrite patch_again|].
  apply get_Some, Object_assign_patched, lookup_singleton_eq.
Qed.

(** X8. [showMovieDescription] applied again with the same action to the
    state it returned returns that state: a second click on the same button
    changes nothing. *)
Theorem show_description_twice (state newState : State) (action : Action) :
  showMovieDescription state action = Normal newState ->
  showMovieDescription newState action = Normal newState.
Proof.
  intros Hreturns.
  destruct (get state "items") as [v|[|first rest]] eqn:Hget.
  - unfold showMovieDescription in Hreturns. rewrite Hget in Hreturns.
    destruct (truthy (Prim v) && truthy_val (length_of (Prim v))
              && greater_than_0 (length_of (Prim v))); [discriminate|].
    injection Hreturns as <-. apply show_description_twice_skipped.
  - unfold showMovieDescription in Hreturns. rewrite Hget in Hreturns.
    injection Hreturns as <-. apply show_description_twice_skipped.
  - assert (state !! "items" = Some (Arr (first :: rest))) as Hitems.
    { unfold get in Hget. destruct (state !! "items"); simpl in Hget;
        [by subst|discriminate]. }
    rewrite (showMovieDescription_mapped _ _ _ _ Hitems) in Hreturns.
    injection Hreturns as <-.
    rewrite (showMovieDescription_mapped _ action (flag_item action 0 first)
               (imap (flag_item action ∘ S) rest)).
    + change (flag_item action 0 first :: imap (flag_item action ∘ S) rest)
        with (imap (flag_item action) (first :: rest)).
      rewrite imap_flag_item_again. f_equal.
      rewrite ?Object_assign_copy, ?(right_id_L ∅ (∪)).
      rewrite <- !insert_union_singleton_l. apply insert_insert_eq.
    + apply Object_assign_patched. apply lookup_singleton_eq.
Qed.



(** * More properties of the helper and of the search *)

(** X11. [buildMovieObject] returns an object with the five properties
    [title], [thumbnail], [rating], [description] and [showDescription] and
    no other, whatever else the movie holds; [showDescription] is false, and
    [title], [rating] and [description] are the movie's [title],
    [vote_average] and [overview], [undefined] where the movie has none. *)
Theorem buildMovieObject_shape (movie : Obj) :
  dom (buildMovieObject movie)
  = ({[ "title"; "thumbnail"; "rating"; "description"; "showDescription" ]}
     : gset string)
  /\ buildMovieObject movie !! "showDescription" = Some (Bool false)
  /\ buildMovieObject movie !! "title" = Some (get_val movie "title")
  /\ buildMovieObject movie !! "rating" = Some (get_val movie "vote_average")
  /\ buildMovieObject movie !! "description"
     = Some (get_val movie "overview").
Proof.
  split; [|by repeat split].
  unfold buildMovieObject. rewrite !dom_insert_L, dom_singleton_L.
  set_solver.
Qed.

(** X12. The thumbnail is the address of the image server followed by the
    [poster_path] as it prints; for a movie without a [poster_path] it ends
    in ["undefined"]. *)
Theorem buildMovieObject_thumbnail (movie : Obj) :
  (forall path,
     movie !! "poster_path" = Some (Str path) ->
     buildMovieObject movie !! "thumbnail"
     = Some (Str ("https://image.tmdb.org/t/p/w92/" ++ path)))
  /\ (movie !! "poster_path" = None ->
      buildMovieObject movie !! "thumbnail"
      = Some (Str "https://image.tmdb.org/t/p/w92/undefined")).
Proof.
  split.
  - intros path Hpath. unfold buildMovieObject, get_val. by rewrite Hpath.
  - intros Hnone. unfold buildMovieObject, get_val. by rewrite Hnone.
Qed.

Section SearchRuns.

Variable key : string.

Lemma search_without_query_sends_nothing_at fuel (action : Action) store :
  type action = FETCH_MOVIES_REQUEST ->
  truthy (get (payload action) "query") = false ->
  dispatchEffect reducers (effects key) (S fuel) action store
  = Returned
      {| state := state store;
         subscribers := subscribers store;
         calls := calls store
                  ++ [EffectCalled FETCH_MOVIES_REQUEST (state store) action
                        dispatchers] |}.
Proof.
  intros Htype Hquery. unfold dispatchEffect, dispatchEffect_with.
  rewrite Htype.
  replace (effects key !! FETCH_MOVIES_REQUEST)
    with (Some (fetchMoviesRequestEffect key)) by reflexivity.
  unfold fetchMoviesRequestEffect. rewrite Hquery. reflexivity.
Qed.

(** X13. An action of type [FETCH_MOVIES_REQUEST] whose [query] is missing,
    empty or otherwise false: [dispatchEffect] calls the effect, which sends
    no request; the state and the subscribers are as they were and no
    subscriber is called. *)
Theorem search_without_query_sends_nothing fuel (action : Action) store :
  type action = FETCH_MOVIES_REQUEST ->
  truthy (get (payload action) "query") = false ->
  dispatchEffect reducers (effects key) (S fuel) action store
  = Returned
      {| state := state store;
         subscribers := subscribers store;
         calls := calls store
                  ++ [EffectCalled FETCH_MOVIES_REQUEST (state store) action
                        dispatchers] |}.
Proof. apply search_without_query_sends_nothing_at. Qed.

(** X14. A search that succeeds, in a store whose subscribers only look:
    the handlers dispatch one [FETCH_MOVIES_SUCCESS]; the state gets as many
    items as the response has results, each built by [buildMovieObject] and
    so with [showDescription] false, [isFetchingItems] becomes false, and
    each subscriber is called once with that state. *)
Theorem search_success_fills_items fuel (response : Response)
    (movies : list Obj) store :
  ok response = true ->
  json response = Fulfilled {| results := Some movies |} ->
  Forall (passive_at (fetchMoviesSuccess (state store) (success movies)))
    (subscribers store) ->
  exists newState,
    exec reducers (effects key) (S (S (S fuel)))
      (fetchMoviesRequestEffect_settled (Fulfilled response)) store
    = Returned
        {| state := newState;
           subscribers := subscribers store;
           calls := calls store
                    ++ map (called_with newState) (subscribers store) |}
    /\ newState !! "items" = Some (Arr (map buildMovieObject movies))
    /\ length (map buildMovieObject movies) = length movies
    /\ Forall (fun it : Obj => it !! "showDescription" = Some (Bool false))
         (map buildMovieObject movies)
    /\ newState !! "isFetchingItems" = Some (Prim (Bool false)).
Proof.
  intros Hok Hjson Hpassive.
  exists (fetchMoviesSuccess (state store) (success movies)).
  split; [|split; [|split; [|split]]].
  - unfold fetchMoviesRequestEffect_settled, then_.
    rewrite Hok. simpl negb. cbv iota. rewrite Hjson.
    cbn [results]. rewrite exec_catch_dispatch.
    rewrite (dispatch_commits reducers (effects key) _ _ _
               (fun state action _ => Normal (fetchMoviesSuccess state action))
               (fetchMoviesSuccess (state store) (success movies)))
      by reflexivity.
    rewrite forEach_passive by exact Hpassive. reflexivity.
  - by apply Object_assign_patched.
  - apply length_map.
  - apply Forall_map. apply Forall_true. intros movie. reflexivity.
  - by apply Object_assign_patched.
Qed.

(** X15. When notifying the success throws (a subscriber throws), the
    [catch] handler of the search runs as for a failed search: it dispatches
    a [FETCH_MOVIES_FAILURE] whose [error] is the thrown value as it prints,
    on the store the throw left behind. *)
Theorem search_success_that_throws_is_reported_as_failure fuel
    (response : Response) (movies : list Obj) store e store' :
  ok response = true ->
  json response = Fulfilled {| results := Some movies |} ->
  dispatch reducers (effects key) (S fuel) (success movies) store
  = Threw e store' ->
  exists message,
    exec reducers (effects key) (S (S (S fuel)))
      (fetchMoviesRequestEffect_settled (Fulfilled response)) store
    = dispatch reducers (effects key) (S fuel) (failure message) store'
    /\ message <> ""
    /\ (template e <> "" -> message = template e).
Proof.
  intros Hok Hjson Hthrows.
  exists (or_string (template e) "Unknown error").
  destruct (or_string_spec (template e) "Unknown error") as [Hempty Hfull].
  split; [|split; [|exact Hfull]].
  - unfold fetchMoviesRequestEffect_settled, then_.
    rewrite Hok. simpl negb. cbv iota. rewrite Hjson.
    cbn [results]. rewrite exec_catch_dispatch.
    change (dispatch reducers (effects key) (S fuel)
              {| type := FETCH_MOVIES_SUCCESS;
                 payload := {[ "data" := Arr (map buildMovieObject movies) ]} |}
              store)
      with (dispatch reducers (effects key) (S fuel) (success movies) store).
    rewrite Hthrows. apply exec_dispatch_only.
  - destruct (String.eqb_spec (template e) "") as [Heq|Hne].
    + rewrite (Hempty Heq). discriminate.
    + rewrite (Hfull Hne). exact Hne.
Qed.

(** X16. A response that is ok and parses but has no [results]: the handlers
    dispatch no success; they do what one call of [dispatch] with a
    [FETCH_MOVIES_FAILURE] does, whose [error] is the text of a TypeError. *)
Theorem search_without_results_is_a_failure fuel (response : Response) store :
  ok response = true ->
  json response = Fulfilled {| results := None |} ->
  exists detail,
    exec reducers (effects key) (S (S (S fuel)))
      (fetchMoviesRequestEffect_settled (Fulfilled response)) store
    = dispatch reducers (effects key) (S fuel)
        (failure ("TypeError: " ++ detail)) store.
Proof.
  intros Hok Hjson.
  exists "Cannot read properties of undefined (reading 'map')".
  unfold fetchMoviesRequestEffect_settled, then_.
  rewrite Hok. simpl negb. cbv iota. rewrite Hjson. cbn [results].
  exact (catch_dispatches_failure reducers (effects key) fuel
           (ThrownError "TypeError"
              "Cannot read properties of undefined (reading 'map')") store).
Qed.

End SearchRuns.

(** * Properties of the click handlers *)

Section Clicks.

Variable key : string.

Lemma exec_CallDispatch fuel action next store :
  exec reducers (effects key) (S fuel) (CallDispatch action next) store
  = and_then (dispatch reducers (effects key) fuel action store)
      (exec reducers (effects key) fuel next).
Proof. reflexivity. Qed.

(** What the click on the search button does first: the request reducer
    runs and the subscribers, which only look, are called. *)
Lemma search_click_dispatch fuel store :
  Forall (passive_at (fetchMoviesRequest (state store))) (subscribers store) ->
  dispatch reducers (effects key) (S fuel)
    {| type := FETCH_MOVIES_REQUEST; payload := ∅ |} store
  = Returned
      {| state := fetchMoviesRequest (state store);
         subscribers := subscribers store;
         calls := calls store
                  ++ map (called_with (fetchMoviesRequest (state store)))
                       (subscribers store) |}.
Proof.
  intros Hpassive.
  rewrite (dispatch_commits reducers (effects key) _ _ _
             (fun state _ _ => Normal (fetchMoviesRequest state))
             (fetchMoviesRequest (state store))) by reflexivity.
  by rewrite forEach_passive.
Qed.

(** X17. A click on the search button with text in the input, in a store
    whose subscribers only look: the state becomes the requested one
    ([isFetchingItems] true, [error] undefined), each subscriber is called
    once with it, then the effect is called with that state and sends one
    request, whose address holds the key and the text as typed. *)
Theorem search_click_sends_one_request fuel (value : string) store :
  value <> "" ->
  Forall (passive_at (fetchMoviesRequest (state store))) (subscribers store) ->
  exec reducers (effects key) (S (S (S (S fuel)))) (search_click value) store
  = Returned
      {| state := fetchMoviesRequest (state store);
         subscribers := subscribers store;
         calls :=
           calls store
           ++ map (called_with (fetchMoviesRequest (state store)))
                (subscribers store)
           ++ [ EffectCalled FETCH_MOVIES_REQUEST
                  (fetchMoviesRequest (state store))
                  {| type := FETCH_MOVIES_REQUEST;
                     payload := {[ "query" := Prim (Str value) ]} |}
                  dispatchers;
                FetchCalled
                  ("https://api.themoviedb.org/3/search/movie?api_key=" ++ key
                     ++ "&language=en-UK&query=" ++ value
                     ++ "&page=1&include_adult=false") ] |}.
Proof.
  intros Hvalue Hpassive. unfold search_click.
  rewrite exec_CallDispatch, search_click_dispatch by exact Hpassive.
  cbn [and_then].
  change (exec reducers (effects key) (S (S (S fuel)))
            (CallDispatchEffect ?a Done) ?s)
    with (and_then
            (dispatchEffect reducers (effects key) (S (S fuel)) a s)
            (exec reducers (effects key) (S (S fuel)) Done)).
  rewrite and_then_Returned.
  unfold dispatchEffect, dispatchEffect_with. cbn [type].
  replace (effects key !! FETCH_MOVIES_REQUEST)
    with (Some (fetchMoviesRequestEffect key)) by reflexivity.
  unfold fetchMoviesRequestEffect. cbn [payload state].
  assert (get ({[ "query" := Prim (Str value) ]} : JsObject) "query"
          = Prim (Str value)) as Hget
    by (apply get_Some; apply lookup_singleton_eq).
  rewrite Hget.
  replace (truthy (Prim (Str value))) with true.
  - simpl. unfold record. simpl. by rewrite <- !app_assoc.
  - simpl. by destruct (String.eqb_spec value "").
Qed.

(** X18. A click on the search button with an empty input: the state still
    becomes the requested one, [isFetchingItems] true, and the effect is
    called, but no request is sent; nothing is left that would dispatch a
    success or a failure. *)
Theorem search_click_without_text_only_sets_fetching fuel store :
  Forall (passive_at (fetchMoviesRequest (state store))) (subscribers store) ->
  exec reducers (effects key) (S (S (S fuel))) (search_click "") store
  = Returned
      {| state := fetchMoviesRequest (state store);
         subscribers := subscribers store;
         calls :=
           calls store
           ++ map (called_with (fetchMoviesRequest (state store)))
                (subscribers store)
           ++ [ EffectCalled FETCH_MOVIES_REQUEST
                  (fetchMoviesRequest (state store))
                  {| type := FETCH_MOVIES_REQUEST;
                     payload := {[ "query" := Prim (Str "") ]} |}
                  dispatchers ] |}
  /\ fetchMoviesRequest (state store) !! "isFetchingItems"
     = Some (Prim (Bool true)).
Proof.
  intros Hpassive. split; [|by apply Object_assign_patched].
  unfold search_click.
  rewrite exec_CallDispatch, search_click_dispatch by exact Hpassive.
  cbn [and_then].
  change (exec reducers (effects key) (S (S fuel))
            (CallDispatchEffect ?a Done) ?s)
    with (and_then
            (dispatchEffect reducers (effects key) (S fuel) a s)
            (exec reducers (effects key) (S fuel) Done)).
  rewrite and_then_Returned.
  rewrite search_without_query_sends_nothing_at by reflexivity.
  simpl. by rewrite <- !app_assoc.
Qed.

(** X19. A click on the "Read more" button number [selected] of a list of
    items, in a store whose subscribers only look: the action reaches
    [showMovieDescription], the state gets the same number of items with
    [showDescription] true on that one and false on every other, and each
    subscriber is called once with that state. *)
Theorem read_more_click_shows_one fuel (selected : nat) (l : list Obj) store :
  state store !! "items" = Some (Arr l) ->
  selected < length l ->
  Forall (fun subscriber => forall st, passive_at st subscriber)
    (subscribers store) ->
  exists newState items,
    exec reducers (effects key) (S (S fuel)) (read_more_click selected) store
    = Returned
        {| state := newState;
           subscribers := subscribers store;
           calls := calls store
                    ++ map (called_with newState) (subscribers store) |}
    /\ newState !! "items" = Some (Arr items)
    /\ length items = length l
    /\ forall index it,
         l !! index = Some it ->
         exists it',
           items !! index = Some it'
           /\ it' !! "showDescription"
              = Some (Bool (bool_decide (index = selected)))
           /\ forall k, k <> "showDescription" -> it' !! k = it !! k.
Proof.
  intros Hitems Hselected Hpassive.
  destruct (showMovieDescription_selects (state store)
              {| type := SHOW_MOVIE_DESCRIPTION;
                 payload :=
                   {[ "index" := Prim (Num (Int (Z.of_nat selected))) ]} |}
              l selected Hitems (lookup_singleton_eq _ _) Hselected)
    as (newState & items & Hreturns & Hnew & Hlength & Hflags & _).
  exists newState, items.
  split; [|by repeat split].
  unfold read_more_click. rewrite exec_dispatch_only.
  rewrite (dispatch_commits reducers (effects key) _ _ _
             (fun state action _ => showMovieDescription state action)
             newState) by (reflexivity || exact Hreturns).
  rewrite forEach_passive; [reflexivity|].
  simpl. eapply Forall_impl; [exact Hpassive|]. intros s Hs. apply Hs.
Qed.

End Clicks.

(** * Properties of the view *)

Lemma get_requested (state : State) :
  get (fetchMoviesRequest state) "isFetchingItems" = Prim (Bool true).
Proof. apply get_Some. by apply Object_assign_patched. Qed.

Lemma get_succeeded (state : State) (action : Action) :
  get (fetchMoviesSuccess state action) "isFetchingItems" = Prim (Bool false)
  /\ get (fetchMoviesSuccess state action) "items" = get (payload action) "data"
  /\ get (fetchMoviesSuccess state action) "error" = get state "error".
Proof.
  split; [apply get_Some; by apply Object_assign_patched|].
  split.
  - apply get_Some. apply Object_assign_patched. apply lookup_insert_eq.
  - unfold get. f_equal. by apply Object_assign_kept.
Qed.

Lemma get_failed (state : State) (action : Action) :
  get (fetchMoviesFailure state action) "isFetchingItems" = Prim (Bool false)
  /\ get (fetchMoviesFailure state action) "items" = Prim Undefined
  /\ get (fetchMoviesFailure state action) "error" = get (payload action) "error".
Proof.
  split; [apply get_Some; by apply Object_assign_patched|].
  split; [apply get_Some; by apply Object_assign_patched|].
  apply get_Some. apply Object_assign_patched.
  rewrite !lookup_insert_ne by discriminate. apply lookup_singleton_eq.
Qed.

Lemma get_data (movies : list Obj) :
  get (payload (success movies)) "data" = Arr (map buildMovieObject movies).
Proof. apply get_Some. apply lookup_singleton_eq. Qed.

(** X20. Whatever the state was (items listed, an error shown), once the
    request reducer has run the markup is the loading line. *)
Theorem view_after_request_is_loading (state : State) :
  renderMoviesList_listHTML (fetchMoviesRequest state) = Normal loading_html.
Proof.
  unfold renderMoviesList_listHTML. by rewrite get_requested.
Qed.

(** X21. Once the failure reducer has run with a message that is not
    empty, whatever the state was, the markup is the error paragraph with
    that message, put in as it is. *)
Theorem view_after_failure_is_the_error (state : State) (message : string) :
  message <> "" ->
  renderMoviesList_listHTML (fetchMoviesFailure state (failure message))
  = Normal (error_html (Prim (Str message))).
Proof.
  intros Hmessage. unfold renderMoviesList_listHTML.
  destruct (get_failed state (failure message)) as (-> & -> & ->).
  replace (get (payload (failure message)) "error")
    with (Prim (Str message))
    by (symmetry; apply get_Some; apply lookup_singleton_eq).
  simpl. by destruct (String.eqb_spec message "").
Qed.

(** X22. Once the success reducer has run with no movies, the markup says
    there were no results, unless the state held an error, which the success
    reducer keeps and the view then shows; after the request reducer, which
    clears the error, it always says there were no results. *)
Theorem view_after_empty_success (state : State) :
  renderMoviesList_listHTML (fetchMoviesSuccess state (success []))
  = Normal (if truthy (get state "error")
            then error_html (get state "error")
            else no_results_html)
  /\ renderMoviesList_listHTML
       (fetchMoviesSuccess (fetchMoviesRequest state) (success []))
     = Normal no_results_html.
Proof.
  assert (forall st,
            renderMoviesList_listHTML (fetchMoviesSuccess st (success []))
            = Normal (if truthy (get st "error")
                      then error_html (get st "error")
                      else no_results_html)) as Hview.
  { intros st. unfold renderMoviesList_listHTML.
    destruct (get_succeeded st (success [])) as (-> & -> & ->).
    rewrite get_data. simpl. by destruct (truthy (get st "error")). }
  split; [apply Hview|]. rewrite Hview.
  replace (get (fetchMoviesRequest state) "error") with (Prim Undefined);
    [reflexivity|].
  symmetry. apply get_Some. by apply Object_assign_patched.
Qed.

(** X23. Once the request reducer and then the success reducer have run
    with the movies of a response, at least one, the markup is the table
    with the rows of each movie in the order of the response, numbered from
    0, and no description row: no item of a fresh list shows its
    description. *)
Theorem view_after_success_is_the_table (state : State) (movie : Obj)
    (movies : list Obj) :
  renderMoviesList_listHTML
    (fetchMoviesSuccess (fetchMoviesRequest state) (success (movie :: movies)))
  = Normal
      (results_head_html
         ++ String.concat ""
              (imap (fun index m =>
                       item_row_html index (buildMovieObject m)
                         ++ item_end_html)
                 (movie :: movies))
         ++ results_tail_html).
Proof.
  unfold renderMoviesList_listHTML.
  destruct (get_succeeded (fetchMoviesRequest state)
              (success (movie :: movies))) as (-> & -> & _).
  rewrite get_data. cbn [truthy negb map length_of length].
  replace (truthy_val (Num (Int (Z.of_nat (S (length (map buildMovieObject movies)))))))
    with true by reflexivity.
  replace (greater_than_0 (Num (Int (Z.of_nat (S (length (map buildMovieObject movies)))))))
    with true by reflexivity.
  cbn [andb]. do 3 f_equal.
  change (buildMovieObject movie :: map buildMovieObject movies)
    with (buildMovieObject <$> (movie :: movies)).
  rewrite imap_fmap. reflexivity.
Qed.

(** * The properties above, on the stores and actions to try them on *)

Lemma subscribe_registers_last_witness :
  reducers !! type request
  = Some (fun state _ _ => Normal (fetchMoviesRequest state))
  /\ Forall (passive_at (fetchMoviesRequest ∅)) (subscribers (createStore ∅))
  /\ passive_at (fetchMoviesRequest ∅) (observer "list")
  /\ getState (subscribe (observer "list") (createStore ∅))
     = getState (createStore ∅)
  /\ dispatch reducers (effects "key") 1 request
       (subscribe (observer "list") (createStore ∅))
     = Returned
         {| state := fetchMoviesRequest ∅;
            subscribers := [observer "list"];
            calls := [called_with (fetchMoviesRequest ∅) (observer "list")] |}.
Proof.
  split; [reflexivity|]. split; [constructor|]. split; [reflexivity|].
  apply (subscribe_registers_last reducers (effects "key") 0 request
           (createStore ∅) (observer "list")
           (fun state _ _ => Normal (fetchMoviesRequest state))
           (fetchMoviesRequest ∅));
    [reflexivity|reflexivity|constructor|reflexivity].
Defined.

Lemma subscriber_fault_keeps_new_state_witness :
  reducers !! type request
  = Some (fun state _ _ => Normal (fetchMoviesRequest state))
  /\ subscribers half_faulty_store
     = ([observer "title"] ++ faulty_view :: [observer "list"])%list
  /\ Forall (passive_at (fetchMoviesRequest ∅)) [observer "title"]
  /\ sub_body faulty_view (fetchMoviesRequest ∅) dispatchers
     = Throw (ThrownError "TypeError" "Cannot set properties of null")
  /\ dispatch reducers (effects "key") 1 request half_faulty_store
     = Threw (ThrownError "TypeError" "Cannot set properties of null")
         {| state := fetchMoviesRequest ∅;
            subscribers := subscribers half_faulty_store;
            calls := [ called_with (fetchMoviesRequest ∅) (observer "title");
                       called_with (fetchMoviesRequest ∅) faulty_view ] |}.
Proof.
  split; [reflexivity|]. split; [reflexivity|].
  split; [repeat constructor|]. split; [reflexivity|].
  apply (subscriber_fault_keeps_new_state reducers (effects "key") 0 request
           half_faulty_store
           (fun state _ _ => Normal (fetchMoviesRequest state))
           (fetchMoviesRequest ∅) [observer "title"] [observer "list"]
           faulty_view);
    [reflexivity|reflexivity|reflexivity|repeat constructor|reflexivity].
Defined.

Lemma subscriber_added_while_notifying_waits_witness :
  reducers !! type request
  = Some (fun state _ _ => Normal (fetchMoviesRequest state))
  /\ subscribers registering_store
     = ([observer "title"] ++ registrar :: [observer "list"])%list
  /\ Forall (passive_at (fetchMoviesRequest ∅)) [observer "title"]
  /\ Forall (passive_at (fetchMoviesRequest ∅)) [observer "list"]
  /\ dispatch reducers (effects "key") 2 request registering_store
     = Returned
         {| state := fetchMoviesRequest ∅;
            subscribers :=
              subscribers registering_store
              ++ [mkSubscriber "late" (fun _ _ => Done)];
            calls := [ called_with (fetchMoviesRequest ∅) (observer "title");
                       called_with (fetchMoviesRequest ∅) registrar;
                       called_with (fetchMoviesRequest ∅) (observer "list") ] |}.
Proof.
  split; [reflexivity|]. split; [reflexivity|].
  split; [repeat constructor|]. split; [repeat constructor|].
  apply (subscriber_added_while_notifying_waits reducers (effects "key") 0
           request registering_store
           (fun state _ _ => Normal (fetchMoviesRequest state))
           (fetchMoviesRequest ∅) [observer "title"] [observer "list"]
           registrar "late" (fun _ _ => Done));
    [reflexivity|reflexivity|reflexivity|repeat constructor
    |repeat constructor|reflexivity].
Defined.

Lemma subscribers_only_grow_witness :
  (final (dispatch reducers (effects "key") 2 request cancelling_store)
   = Some cancelled_store
   \/ final (dispatchEffect reducers (effects "key") 2 request cancelling_store)
      = Some cancelled_store)
  /\ subscribers cancelling_store `prefix_of` subscribers cancelled_store.
Proof.
  assert (final (dispatch reducers (effects "key") 2 request cancelling_store)
          = Some cancelled_store
          \/ final (dispatchEffect reducers (effects "key") 2 request
                      cancelling_store)
             = Some cancelled_store) as Hfinal.
  { left. vm_compute. reflexivity. }
  split; [exact Hfinal|].
  apply (subscribers_only_grow reducers (effects "key") 2 request
           cancelling_store cancelled_store Hfinal).
Defined.


Lemma show_description_selects_one_witness :
  three_items !! "items"
  = Some (Arr [item "Alien" true; item "Brazil" false; item "Charade" false])
  /\ payload (show 2) !! "index" = Some (Prim (Num (Int (Z.of_nat 2))))
  /\ 2 < length [item "Alien" true; item "Brazil" false; item "Charade" false]
  /\ exists newState items,
       showMovieDescription three_items (show 2) = Normal newState
       /\ newState !! "items" = Some (Arr items)
       /\ length items
          = length [item "Alien" true; item "Brazil" false; item "Charade" false]
       /\ (forall index it,
             [item "Alien" true; item "Brazil" false; item "Charade" false]
               !! index = Some it ->
             exists it',
               items !! index = Some it'
               /\ it' !! "showDescription"
                  = Some (Bool (bool_decide (index = 2)))
               /\ forall k, k <> "showDescription" -> it' !! k = it !! k)
       /\ forall k, k <> "items" -> newState !! k = three_items !! k.
Proof.
  split; [reflexivity|]. split; [reflexivity|]. split; [simpl; lia|].
  apply (show_description_selects_one three_items (show 2)
           [item "Alien" true; item "Brazil" false; item "Charade" false] 2);
    [reflexivity|reflexivity|simpl; lia].
Defined.

Lemma show_description_twice_witness :
  showMovieDescription no_items (show 0)
  = Normal (Object_assign ∅ [no_items; {[ "items" := Prim Undefined ]}])
  /\ showMovieDescription
       (Object_assign ∅ [no_items; {[ "items" := Prim Undefined ]}]) (show 0)
     = Normal (Object_assign ∅ [no_items; {[ "items" := Prim Undefined ]}]).
Proof.
  split; [reflexivity|].
  apply (show_description_twice no_items
           (Object_assign ∅ [no_items; {[ "items" := Prim Undefined ]}])
           (show 0)).
  reflexivity.
Defined.



Lemma buildMovieObject_thumbnail_witness :
  unposted_movie !! "poster_path" = None
  /\ buildMovieObject unposted_movie !! "thumbnail"
     = Some (Str "https://image.tmdb.org/t/p/w92/undefined").
Proof.
  split; [reflexivity|].
  destruct (buildMovieObject_thumbnail unposted_movie) as [_ Hmissing].
  apply Hmissing. reflexivity.
Defined.

Lemma search_without_query_sends_nothing_witness :
  type request = FETCH_MOVIES_REQUEST
  /\ truthy (get (payload request) "query") = false
  /\ dispatchEffect reducers (effects "key") 1 request (observed_store ∅)
     = Returned
         {| state := state (observed_store ∅);
            subscribers := subscribers (observed_store ∅);
            calls := calls (observed_store ∅)
                     ++ [EffectCalled FETCH_MOVIES_REQUEST
                           (state (observed_store ∅)) request dispatchers] |}.
Proof.
  split; [reflexivity|]. split; [reflexivity|].
  apply (search_without_query_sends_nothing "key" 0 request (observed_store ∅));
    reflexivity.
Defined.

Lemma search_success_fills_items_witness :
  ok (ok_response two_movies) = true
  /\ json (ok_response two_movies) = Fulfilled {| results := Some two_movies |}
  /\ Forall (passive_at (fetchMoviesSuccess (state (observed_store ∅))
                           (success two_movies)))
       (subscribers (observed_store ∅))
  /\ exists newState,
       exec reducers (effects "key") 3
         (fetchMoviesRequestEffect_settled (Fulfilled (ok_response two_movies)))
         (observed_store ∅)
       = Returned
           {| state := newState;
              subscribers := subscribers (observed_store ∅);
              calls := calls (observed_store ∅)
                       ++ map (called_with newState)
                            (subscribers (observed_store ∅)) |}
       /\ newState !! "items" = Some (Arr (map buildMovieObject two_movies))
       /\ length (map buildMovieObject two_movies) = length two_movies
       /\ Forall (fun it : Obj => it !! "showDescription" = Some (Bool false))
            (map buildMovieObject two_movies)
       /\ newState !! "isFetchingItems" = Some (Prim (Bool false)).
Proof.
  assert (Forall (passive_at (fetchMoviesSuccess (state (observed_store ∅))
                                (success two_movies)))
            (subscribers (observed_store ∅))) as Hpassive.
  { repeat constructor. }
  split; [reflexivity|]. split; [reflexivity|]. split; [exact Hpassive|].
  apply (search_success_fills_items "key" 0 (ok_response two_movies)
           two_movies (observed_store ∅) eq_refl eq_refl Hpassive).
Defined.

Lemma search_success_that_throws_is_reported_as_failure_witness :
  ok (ok_response two_movies) = true
  /\ json (ok_response two_movies) = Fulfilled {| results := Some two_movies |}
  /\ dispatch reducers (effects "key") 1 (success two_movies) faulty_store
     = Threw (ThrownError "TypeError" "Cannot set properties of null")
         faulty_store_filled
  /\ exists message,
       exec reducers (effects "key") 3
         (fetchMoviesRequestEffect_settled (Fulfilled (ok_response two_movies)))
         faulty_store
       = dispatch reducers (effects "key") 1 (failure message)
           faulty_store_filled
       /\ message <> ""
       /\ (template (ThrownError "TypeError" "Cannot set properties of null")
           <> "" ->
           message
           = template (ThrownError "TypeError" "Cannot set properties of null")).
Proof.
  assert (dispatch reducers (effects "key") 1 (success two_movies) faulty_store
          = Threw (ThrownError "TypeError" "Cannot set properties of null")
              faulty_store_filled) as Hthrows by reflexivity.
  split; [reflexivity|]. split; [reflexivity|]. split; [exact Hthrows|].
  apply (search_success_that_throws_is_reported_as_failure "key" 0
           (ok_response two_movies) two_movies faulty_store _ _
           eq_refl eq_refl Hthrows).
Defined.

Lemma search_without_results_is_a_failure_witness :
  ok empty_body_response = true
  /\ json empty_body_response = Fulfilled {| results := None |}
  /\ exists detail,
       exec reducers (effects "key") 3
         (fetchMoviesRequestEffect_settled (Fulfilled empty_body_response))
         (observed_store ∅)
       = dispatch reducers (effects "key") 1
           (failure ("TypeError: " ++ detail)) (observed_store ∅).
Proof.
  split; [reflexivity|]. split; [reflexivity|].
  apply (search_without_results_is_a_failure "key" 0 empty_body_response
           (observed_store ∅)); reflexivity.
Defined.

Lemma search_click_sends_one_request_witness :
  "alien" <> ""
  /\ Forall (passive_at (fetchMoviesRequest (state (observed_store ∅))))
       (subscribers (observed_store ∅))
  /\ exec reducers (effects "key") 4 (search_click "alien") (observed_store ∅)
     = Returned
         {| state := fetchMoviesRequest (state (observed_store ∅));
            subscribers := subscribers (observed_store ∅);
            calls :=
              calls (observed_store ∅)
              ++ map (called_with (fetchMoviesRequest (state (observed_store ∅))))
                   (subscribers (observed_store ∅))
              ++ [ EffectCalled FETCH_MOVIES_REQUEST
                     (fetchMoviesRequest (state (observed_store ∅)))
                     {| type := FETCH_MOVIES_REQUEST;
                        payload := {[ "query" := Prim (Str "alien") ]} |}
                     dispatchers;
                   FetchCalled
                     ("https://api.themoviedb.org/3/search/movie?api_key="
                        ++ "key" ++ "&language=en-UK&query=" ++ "alien"
                        ++ "&page=1&include_adult=false") ] |}.
Proof.
  assert (Forall (passive_at (fetchMoviesRequest (state (observed_store ∅))))
            (subscribers (observed_store ∅))) as Hpassive.
  { repeat constructor. }
  split; [discriminate|]. split; [exact Hpassive|].
  apply (search_click_sends_one_request "key" 0 "alien" (observed_store ∅));
    [discriminate|exact Hpassive].
Defined.

Lemma search_click_without_text_only_sets_fetching_witness :
  Forall (passive_at (fetchMoviesRequest (state (observed_store ∅))))
    (subscribers (observed_store ∅))
  /\ exec reducers (effects "key") 3 (search_click "") (observed_store ∅)
     = Returned
         {| state := fetchMoviesRequest (state (observed_store ∅));
            subscribers := subscribers (observed_store ∅);
            calls :=
              calls (observed_store ∅)
              ++ map (called_with (fetchMoviesRequest (state (observed_store ∅))))
                   (subscribers (observed_store ∅))
              ++ [ EffectCalled FETCH_MOVIES_REQUEST
                     (fetchMoviesRequest (state (observed_store ∅)))
                     {| type := FETCH_MOVIES_REQUEST;
                        payload := {[ "query" := Prim (Str "") ]} |}
                     dispatchers ] |}.
Proof.
  assert (Forall (passive_at (fetchMoviesRequest (state (observed_store ∅))))
            (subscribers (observed_store ∅))) as Hpassive.
  { repeat constructor. }
  split; [exact Hpassive|].
  exact (proj1 (search_click_without_text_only_sets_fetching "key" 0
                  (observed_store ∅) Hpassive)).
Defined.

Lemma read_more_click_shows_one_witness :
  state (observed_store three_items) !! "items"
  = Some (Arr [item "Alien" true; item "Brazil" false; item "Charade" false])
  /\ 1 < length [item "Alien" true; item "Brazil" false; item "Charade" false]
  /\ Forall (fun subscriber => forall st, passive_at st subscriber)
       (subscribers (observed_store three_items))
  /\ exists newState items,
       exec reducers (effects "key") 2 (read_more_click 1)
         (observed_store three_items)
       = Returned
           {| state := newState;
              subscribers := subscribers (observed_store three_items);
              calls := calls (observed_store three_items)
                       ++ map (called_with newState)
                            (subscribers (observed_store three_items)) |}
       /\ newState !! "items" = Some (Arr items)
       /\ length items
          = length [item "Alien" true; item "Brazil" false; item "Charade" false]
       /\ forall index it,
            [item "Alien" true; item "Brazil" false; item "Charade" false]
              !! index = Some it ->
            exists it',
              items !! index = Some it'
              /\ it' !! "showDescription"
                 = Some (Bool (bool_decide (index = 1)))
              /\ forall k, k <> "showDescription" -> it' !! k = it !! k.
Proof.
  assert (Forall (fun subscriber => forall st, passive_at st subscriber)
            (subscribers (observed_store three_items))) as Hpassive.
  { repeat constructor. }
  split; [reflexivity|]. split; [simpl; lia|]. split; [exact Hpassive|].
  apply (read_more_click_shows_one "key" 0 1
           [item "Alien" true; item "Brazil" false; item "Charade" false]
           (observed_store three_items) eq_refl);
    [simpl; lia|exact Hpassive].
Defined.

Lemma view_after_failure_is_the_error_witness :
  "Network down" <> ""
  /\ renderMoviesList_listHTML
       (fetchMoviesFailure three_items (failure "Network down"))
     = Normal (error_html (Prim (Str "Network down"))).
Proof.
  split; [discriminate|].
  apply (view_after_failure_is_the_error three_items "Network down").
  discriminate.
Defined.
